(** * IEEE_PES_GTD_case_study.py: the flexibility table built by [test_case4]

    The script loads the CIGRE medium-voltage template network of pandapower,
    edits a few of its tables and appends the [flexibility] table, one row per
    flexibility provisioning unit (FPU).  The embedding below follows the
    script statement by statement.

    - Numbers are IEEE-754 binary64 values, as numpy and pandas hold them:
      [spec_float] with the operations [SF64add], [SF64mul], ... of the
      standard library, which compute the correctly rounded results.
    - A pandas table is a list of rows, each device row paired with its index
      label; a cell that was never assigned (NaN in pandas) is [None].
    - numpy's global random generator is explicit state; pandas failures
      (a list of the wrong length, a missing label) are raised as [exn].
    - The chained assignments of the script ([df[col].loc[...] = v],
      [df[col][mask] *= c]) write through to the table, which is how the
      pandas releases of the script's time (before copy-on-write) ran it.
    - numpy and pandapower are not part of the repository: numpy is the
      interface [NumPy], the template network a section variable. *)

From Stdlib Require Import ZArith String List Bool Lia Floats.
Import ListNotations.
#[local] Set Warnings "-inexact-float".
#[local] Open Scope string_scope.
#[local] Open Scope list_scope.

(** ** binary64 arithmetic *)

Definition float64 : Type := spec_float.

(** A Python float literal, and a Python int where numpy converts it. *)
Definition lit (x : PrimFloat.float) : float64 := Prim2SF x.
Definition of_int (z : Z) : float64 := binary_normalize prec emax z 0 false.

Declare Scope f64_scope.
Delimit Scope f64_scope with f64.
Bind Scope f64_scope with float64.
Infix "+" := SF64add : f64_scope.
Infix "-" := SF64sub : f64_scope.
Infix "*" := SF64mul : f64_scope.
Infix "/" := SF64div : f64_scope.
Notation "- x" := (SFopp x) : f64_scope.
Notation "x <= y" := (SFleb x y = true) : f64_scope.
Notation "x < y" := (SFltb x y = true) : f64_scope.
Notation "x <= y <= z" := (SFleb x y = true /\ SFleb y z = true) : f64_scope.

(** Syntactic equality of two binary64 values, as a boolean. *)
Definition float64_eqb (x y : float64) : bool :=
  match x, y with
  | S754_zero s, S754_zero s' => Bool.eqb s s'
  | S754_infinity s, S754_infinity s' => Bool.eqb s s'
  | S754_nan, S754_nan => true
  | S754_finite s m e, S754_finite s' m' e' =>
      Bool.eqb s s' && Pos.eqb m m' && Z.eqb e e'
  | _, _ => false
  end.

(** The values at or above zero, and those strictly above. *)
Definition nonneg_shape (x : float64) : Prop :=
  match x with
  | S754_zero _ | S754_finite false _ _ | S754_infinity false => True
  | _ => False
  end.
Definition pos_shape (x : float64) : Prop :=
  match x with
  | S754_finite false _ _ | S754_infinity false => True
  | _ => False
  end.

(** The exponent of a finite value is at least [emin]: every value that an
    operation returns has that, and so has every valid binary64. *)
Definition exp_ok (x : float64) : Prop :=
  match x with
  | S754_finite _ _ e => (emin <= e)%Z
  | _ => True
  end.

(** ** Exceptions *)

Inductive exn : Set :=
  | ValueError | KeyError | AttributeError | TypeError | AssertionError.

Inductive result (A : Type) : Type :=
  | OK (a : A)
  | Raise (e : exn).
Arguments OK {A} a.
Arguments Raise {A} e.

Definition rbind {A B} (m : result A) (k : A -> result B) : result B :=
  match m with
  | OK a => k a
  | Raise e => Raise e
  end.

Declare Scope result_scope.
Delimit Scope result_scope with result.
Notation "x <- m ;; k" := (rbind m (fun x => k))
  (at level 61, m at next level, right associativity) : result_scope.

(** ** Lists *)

Fixpoint zip_with {A B C} (f : A -> B -> C) (xs : list A) (ys : list B)
    : list C :=
  match xs, ys with
  | x :: xs', y :: ys' => f x y :: zip_with f xs' ys'
  | _, _ => []
  end.

(** ** pandas tables *)

Section Pandas.
Context {R V : Type}.
Variable upd : V -> R -> R.

(** [df[col] = v] with a scalar: every row takes it. *)
Definition assign_scalar (v : V) (df : list R) : list R := map (upd v) df.

Fixpoint zip_upd (vs : list V) (df : list R) : list R :=
  match vs, df with
  | v :: vs', r :: df' => upd v r :: zip_upd vs' df'
  | _, _ => []
  end.

(** [df[col] = vs] with a list: the lengths must agree. *)
Definition assign_list (vs : list V) (df : list R) : result (list R) :=
  if Nat.eqb (length vs) (length df) then OK (zip_upd vs df)
  else Raise ValueError.

(** [df[col].loc[:n-1] = ...] on the index 0, 1, ...: the first [n] rows. *)
Definition loc_upto (n : nat) (vs : list V) (df : list R) : result (list R) :=
  (rs <- assign_list vs (firstn n df) ;; OK (rs ++ skipn n df))%result.
Definition loc_upto_scalar (n : nat) (v : V) (df : list R) : list R :=
  assign_scalar v (firstn n df) ++ skipn n df.

(** [df[col].loc[n:] = ...]: the rows from position [n] on. *)
Definition loc_from (n : nat) (vs : list V) (df : list R) : result (list R) :=
  (rs <- assign_list vs (skipn n df) ;; OK (firstn n df ++ rs))%result.
Definition loc_from_scalar (n : nat) (v : V) (df : list R) : list R :=
  firstn n df ++ assign_scalar v (skipn n df).

(** [df.apply(func, axis=1)]: [func] on every row, in order. *)
Fixpoint apply (func : R -> result V) (df : list R) : result (list V) :=
  match df with
  | [] => OK []
  | r :: df' =>
      (v <- func r ;; vs <- apply func df' ;; OK (v :: vs))%result
  end.
End Pandas.

(** [df[col].iloc[:-1] *= c] and [df[col][mask] *= c] on a float column. *)
Definition imul_cell {R} (mask : R -> bool) (get : R -> option float64)
    (set : float64 -> R -> R) (c : float64) (r : R) : R :=
  if mask r then
    match get r with
    | Some x => set (x * c)%f64 r
    | None => r
    end
  else r.
Definition imul_where {R} (mask : R -> bool) (get : R -> option float64)
    (set : float64 -> R -> R) (c : float64) (df : list R) : list R :=
  map (imul_cell mask get set c) df.

(** ** The device tables of a pandapower network *)

Module Elem.
(** A row of [net.load] or [net.sgen]: the columns the script touches. *)
Record row : Type := {
  bus : Z;
  p_mw : float64;
  q_mvar : float64;
  controllable : option bool
}.
Definition set_p_mw (v : float64) (r : row) : row :=
  {| bus := bus r; p_mw := v; q_mvar := q_mvar r;
     controllable := controllable r |}.
Definition set_controllable (v : bool) (r : row) : row :=
  {| bus := bus r; p_mw := p_mw r; q_mvar := q_mvar r;
     controllable := Some v |}.
(** [column == True]. *)
Definition is_controllable (r : row) : bool :=
  match controllable r with
  | Some b => b
  | None => false
  end.
End Elem.

(** A device table: rows with their index labels, in table order. *)
Definition table : Type := list (Z * Elem.row).

Definition index (t : table) : list Z := map fst t.
Definition column {V} (f : Elem.row -> V) (t : table) : list V :=
  map (fun ir => f (snd ir)) t.
Definition on_row (f : Elem.row -> Elem.row) (ir : Z * Elem.row) : Z * Elem.row :=
  (fst ir, f (snd ir)).

(** [(column == True).sum()]. *)
Definition sum_true (mask : list bool) : nat :=
  length (filter (fun b => b) mask).

(** [t[t['controllable']]]: boolean indexing. *)
Definition controllable_rows (t : table) : table :=
  filter (fun ir => Elem.is_controllable (snd ir)) t.

(** [t.loc[label]]: the row carrying the label. *)
Definition loc (t : table) (label : Z) : result Elem.row :=
  match find (fun ir => Z.eqb (fst ir) label) t with
  | Some ir => OK (snd ir)
  | None => Raise KeyError
  end.

(** [t[col].iloc[:-1] *= c]: every row but the last. *)
Definition iloc_but_last_imul (c : float64) (t : table) : table :=
  let k := (length t - 1)%nat in
  map (on_row (fun r => Elem.set_p_mw (Elem.p_mw r * c)%f64 r)) (firstn k t)
  ++ skipn k t.

Record switch_row : Type := { closed : bool }.
Record bus_row : Type := {
  max_vm_pu : option float64;
  min_vm_pu : option float64
}.
(** A numeric cell of a column that holds Python ints or floats. *)
Inductive number : Type :=
  | Int (n : Z)
  | Float (x : float64).
Record line_row : Type := {
  max_loading_percent : option number;
  c_nf_per_km : number
}.

(** ** The flexibility table *)

(** [FPU_info] cells are Python dicts from key to float, in insertion order. *)
Definition dict : Type := list (string * float64).

Module Flex.
Record row : Type := {
  element : option Z;
  et : option string;
  up_quantity : option float64;
  up_cost : option float64;
  down_quantity : option float64;
  down_cost : option float64;
  FPU_type : option string;
  FPU_info : option dict;
  p_setpoint : option float64;
  q_setpoint : option float64;
  bus : option Z
}.

(** A row of a frame created with an index and no data. *)
Definition nan : row :=
  {| element := None; et := None; up_quantity := None; up_cost := None;
     down_quantity := None; down_cost := None; FPU_type := None;
     FPU_info := None; p_setpoint := None; q_setpoint := None;
     bus := None |}.

Definition set_element (v : Z) (r : row) : row :=
  {| element := Some v; et := et r; up_quantity := up_quantity r;
     up_cost := up_cost r; down_quantity := down_quantity r;
     down_cost := down_cost r; FPU_type := FPU_type r;
     FPU_info := FPU_info r; p_setpoint := p_setpoint r;
     q_setpoint := q_setpoint r; bus := bus r |}.
Definition set_et (v : string) (r : row) : row :=
  {| element := element r; et := Some v; up_quantity := up_quantity r;
     up_cost := up_cost r; down_quantity := down_quantity r;
     down_cost := down_cost r; FPU_type := FPU_type r;
     FPU_info := FPU_info r; p_setpoint := p_setpoint r;
     q_setpoint := q_setpoint r; bus := bus r |}.
Definition set_up_quantity (v : float64) (r : row) : row :=
  {| element := element r; et := et r; up_quantity := Some v;
     up_cost := up_cost r; down_quantity := down_quantity r;
     down_cost := down_cost r; FPU_type := FPU_type r;
     FPU_info := FPU_info r; p_setpoint := p_setpoint r;
     q_setpoint := q_setpoint r; bus := bus r |}.
Definition set_up_cost (v : float64) (r : row) : row :=
  {| element := element r; et := et r; up_quantity := up_quantity r;
     up_cost := Some v; down_quantity := down_quantity r;
     down_cost := down_cost r; FPU_type := FPU_type r;
     FPU_info := FPU_info r; p_setpoint := p_setpoint r;
     q_setpoint := q_setpoint r; bus := bus r |}.
Definition set_down_quantity (v : float64) (r : row) : row :=
  {| element := element r; et := et r; up_quantity := up_quantity r;
     up_cost := up_cost r; down_quantity := Some v;
     down_cost := down_cost r; FPU_type := FPU_type r;
     FPU_info := FPU_info r; p_setpoint := p_setpoint r;
     q_setpoint := q_setpoint r; bus := bus r |}.
Definition set_down_cost (v : float64) (r : row) : row :=
  {| element := element r; et := et r; up_quantity := up_quantity r;
     up_cost := up_cost r; down_quantity := down_quantity r;
     down_cost := Some v; FPU_type := FPU_type r;
     FPU_info := FPU_info r; p_setpoint := p_setpoint r;
     q_setpoint := q_setpoint r; bus := bus r |}.
Definition set_FPU_type (v : string) (r : row) : row :=
  {| element := element r; et := et r; up_quantity := up_quantity r;
     up_cost := up_cost r; down_quantity := down_quantity r;
     down_cost := down_cost r; FPU_type := Some v;
     FPU_info := FPU_info r; p_setpoint := p_setpoint r;
     q_setpoint := q_setpoint r; bus := bus r |}.
Definition set_FPU_info (v : dict) (r : row) : row :=
  {| element := element r; et := et r; up_quantity := up_quantity r;
     up_cost := up_cost r; down_quantity := down_quantity r;
     down_cost := down_cost r; FPU_type := FPU_type r;
     FPU_info := Some v; p_setpoint := p_setpoint r;
     q_setpoint := q_setpoint r; bus := bus r |}.
Definition set_p_setpoint (v : float64) (r : row) : row :=
  {| element := element r; et := et r; up_quantity := up_quantity r;
     up_cost := up_cost r; down_quantity := down_quantity r;
     down_cost := down_cost r; FPU_type := FPU_type r;
     FPU_info := FPU_info r; p_setpoint := Some v;
     q_setpoint := q_setpoint r; bus := bus r |}.
Definition set_q_setpoint (v : float64) (r : row) : row :=
  {| element := element r; et := et r; up_quantity := up_quantity r;
     up_cost := up_cost r; down_quantity := down_quantity r;
     down_cost := down_cost r; FPU_type := FPU_type r;
     FPU_info := FPU_info r; p_setpoint := p_setpoint r;
     q_setpoint := Some v; bus := bus r |}.
Definition set_bus (v : Z) (r : row) : row :=
  {| element := element r; et := et r; up_quantity := up_quantity r;
     up_cost := up_cost r; down_quantity := down_quantity r;
     down_cost := down_cost r; FPU_type := FPU_type r;
     FPU_info := FPU_info r; p_setpoint := p_setpoint r;
     q_setpoint := q_setpoint r; bus := Some v |}.

(** [column == 'load']. *)
Definition et_is (name : string) (r : row) : bool :=
  match et r with
  | Some s => String.eqb s name
  | None => false
  end.
End Flex.

(** ** The network object *)

Record Net : Type := {
  switch : list switch_row;
  bus : list bus_row;
  line : list line_row;
  sgen : table;
  load : table;
  flexibility : list Flex.row
}.

Definition set_switch (v : list switch_row) (net : Net) : Net :=
  {| switch := v; bus := bus net; line := line net; sgen := sgen net;
     load := load net; flexibility := flexibility net |}.
Definition set_bus (v : list bus_row) (net : Net) : Net :=
  {| switch := switch net; bus := v; line := line net; sgen := sgen net;
     load := load net; flexibility := flexibility net |}.
Definition set_line (v : list line_row) (net : Net) : Net :=
  {| switch := switch net; bus := bus net; line := v; sgen := sgen net;
     load := load net; flexibility := flexibility net |}.
Definition set_sgen (v : table) (net : Net) : Net :=
  {| switch := switch net; bus := bus net; line := line net; sgen := v;
     load := load net; flexibility := flexibility net |}.
Definition set_load (v : table) (net : Net) : Net :=
  {| switch := switch net; bus := bus net; line := line net; sgen := sgen net;
     load := v; flexibility := flexibility net |}.
Definition set_flexibility (v : list Flex.row) (net : Net) : Net :=
  {| switch := switch net; bus := bus net; line := line net; sgen := sgen net;
     load := load net; flexibility := v |}.

(** [getattr(net, name)] followed by [.loc[label]]: the script reaches the
    device tables by the name held in [et].  A missing cell is no attribute
    name, and the other tables of the network have none of the columns read. *)
Definition getattr (net : Net) (name : option string) : result table :=
  match name with
  | None => Raise TypeError
  | Some s =>
      if String.eqb s "load" then OK (load net)
      else if String.eqb s "sgen" then OK (sgen net)
      else Raise AttributeError
  end.

Definition lookup {V} (net : Net) (col : Elem.row -> V) (x : Flex.row) : result V :=
  (t <- getattr net (Flex.et x) ;;
   match Flex.element x with
   | None => Raise KeyError
   | Some label => r <- loc t label ;; OK (col r)
   end)%result.

(** ** numpy *)

Class NumPy : Type := {
  (** the state of the global generator behind [np.random] *)
  rng_state : Type;
  (** [np.random.seed(k)]: the state becomes a function of [k] alone *)
  np_random_seed : Z -> rng_state;
  (** [np.random.random(n)]: [n] draws and the state after them *)
  np_random_random : nat -> rng_state -> list float64 * rng_state;
  (** [x.round(decimals)] on one element *)
  np_round : Z -> float64 -> float64;
  np_arctan : float64 -> float64;
  np_cos : float64 -> float64
}.

(** The 3-decimal grid between 0 and 1: [k / 1000] in binary64. *)
Definition grid3 (k : Z) : float64 := (of_int k / of_int 1000)%f64.
Definition on_grid3 (x : float64) : Prop :=
  exists k : Z, (0 <= k <= 1000)%Z /\ x = grid3 k.
Definition in_unit (x : float64) : Prop :=
  (of_int 0 <= x)%f64 /\ (x < of_int 1)%f64.

(** The two costs computed from a rounded draw [r] lie in their intervals. *)
Definition costs_in_bounds (r : float64) : bool :=
  SFleb (of_int 90) (of_int 90 + of_int 20 * r)%f64
  && SFleb (of_int 90 + of_int 20 * r)%f64 (of_int 110)
  && SFleb (of_int 80) (of_int 100 - of_int 20 * r)%f64
  && SFleb (of_int 100 - of_int 20 * r)%f64 (of_int 100).

(** The reactive-power box computed from a rounded draw [f] is symmetric
    and lies between 1 and 2 in absolute value. *)
Definition box_in_bounds (f : float64) : bool :=
  float64_eqb (of_int (-1) - f)%f64 (- (of_int 1 + f))%f64
  && SFleb (of_int 1) (of_int 1 + f)%f64
  && SFleb (of_int 1 + f)%f64 (of_int 2)
  && SFleb (of_int (-2)) (of_int (-1) - f)%f64
  && SFleb (of_int (-1) - f)%f64 (of_int (-1)).

(** What the script relies on from numpy: [random] returns as many draws as
    asked, each in the half-open interval from 0 to 1; and [round(3)], which
    numpy computes as [rint(x * 1000) / 1000], takes such a draw to [k / 1000]
    for a whole number [k] from 0 to 1000, the division being that of
    binary64. *)
Class NumPySpec (np : NumPy) : Prop := {
  random_length : forall n s, length (fst (np_random_random n s)) = n;
  random_in_unit : forall n s x,
    In x (fst (np_random_random n s)) -> in_unit x;
  round3_on_grid : forall x, in_unit x -> on_grid3 (np_round 3 x)
}.

(** ** The script *)

Section Script.
Context {np : NumPy}.
(** [pn.create_cigre_network_mv(with_der=...)] of pandapower. *)
Variable create_cigre_network_mv : string -> Net.

(** Computations that read and write the generator state and may raise. *)
Definition M (A : Type) : Type := rng_state -> result (A * rng_state).
Definition ret {A} (a : A) : M A := fun s => OK (a, s).
Definition bind {A B} (m : M A) (k : A -> M B) : M B :=
  fun s =>
    match m s with
    | OK (a, s') => k a s'
    | Raise e => Raise e
    end.
Definition lift {A} (r : result A) : M A :=
  fun s =>
    match r with
    | OK a => OK (a, s)
    | Raise e => Raise e
    end.
Definition seed (k : Z) : M unit := fun _ => OK (tt, np_random_seed k).
Definition random (n : nat) : M (list float64) :=
  fun s => OK (np_random_random n s).

(** A computation whose outcome, final state included, does not depend on
    the state it is started in. *)
Definition oblivious {A} (m : M A) : Prop := forall s0 s1, m s0 = m s1.

Notation "x <- m ;; k" := (bind m (fun x => k))
  (at level 61, m at next level, right associativity).
Notation "m ;; k" := (bind m (fun _ => k))
  (at level 61, right associativity).

(** Line 22: the dispatchable loads. *)
Definition controllable_flags : list bool :=
  [true; false; false; false; false; false; false; false; true; false;
   false; false; false; false; false; false; true; true].

(** Lines 47-60, "controllable loads". *)
Definition controllable_loads (net : Net) (n : nat) (df : list Flex.row)
    : result (list Flex.row) :=
  let ctrl := controllable_rows (load net) in
  (df <- loc_upto Flex.set_element n (index ctrl) df ;;
   let df := loc_upto_scalar Flex.set_et n "load" df in
   df <- loc_upto Flex.set_up_quantity n
           (column (fun r => Elem.p_mw r / of_int 2)%f64 ctrl) df ;;
   df <- loc_upto Flex.set_down_quantity n
           (column (fun r => Elem.p_mw r / of_int 2)%f64 ctrl) df ;;
   let df := loc_upto_scalar Flex.set_FPU_type n "load" df in
   let angle :=
     column (fun r => np_arctan (Elem.q_mvar r / Elem.p_mw r)%f64) ctrl in
   let pfs := map np_cos angle in
   loc_upto Flex.set_FPU_info n (map (fun pf => [("pf", pf)]) pfs) df)%result.

(** Lines 62-81, "PVs". *)
Definition PVs (net : Net) (n : nat) (df : list Flex.row) : M (list Flex.row) :=
  df <- lift (loc_from Flex.set_element n (index (sgen net)) df) ;;
  let df := loc_from_scalar Flex.set_et n "sgen" df in
  df <- lift (loc_from Flex.set_up_quantity n
                (column (fun r => lit 1.1 * Elem.p_mw r)%f64 (sgen net)) df) ;;
  df <- lift (loc_from Flex.set_down_quantity n
                (column Elem.p_mw (sgen net)) df) ;;
  let number_of_pvs := 0%nat in
  let number_of_box := 9%nat in
  if negb (Nat.eqb (number_of_box + number_of_pvs) 9) then
    lift (Raise AssertionError)
  else
  let types := repeat "PV" number_of_pvs ++ repeat "Box" number_of_box in
  df <- lift (loc_from Flex.set_FPU_type n types df) ;;
  let pfs := repeat (lit 0.9) number_of_pvs in
  let extra_info := map (fun pf => [("pf", pf)]) pfs in
  seed 0 ;;
  draws <- random number_of_box ;;
  let fuzz := map (np_round 3) draws in
  let extra_info :=
    extra_info
    ++ map (fun f => [("q_min", (of_int (-1) - f)%f64);
                      ("q_max", (of_int 1 + f)%f64)]) fuzz in
  lift (loc_from Flex.set_FPU_info n extra_info df).

(** Lines 83-88, "assign random costs to FPUs". *)
Definition random_costs (df : list Flex.row) : M (list Flex.row) :=
  seed 1 ;;
  draws <- random (length df) ;;
  df <- lift (assign_list Flex.set_up_cost
                (map (fun r => of_int 90 + of_int 20 * np_round 3 r)%f64 draws)
                df) ;;
  seed 2 ;;
  draws <- random (length df) ;;
  lift (assign_list Flex.set_down_cost
          (map (fun r => of_int 100 - of_int 20 * np_round 3 r)%f64 draws)
          df).

(** Lines 90-105: setpoints and bus of every FPU, read from its device
    table; the sign of the loads' setpoints is inverted. *)
Definition setpoints (net : Net) (df : list Flex.row) : result (list Flex.row) :=
  (ps <- apply (lookup net Elem.p_mw) df ;;
   df <- assign_list Flex.set_p_setpoint ps df ;;
   let df := imul_where (Flex.et_is "load") Flex.p_setpoint
               Flex.set_p_setpoint (of_int (-1)) df in
   qs <- apply (lookup net Elem.q_mvar) df ;;
   df <- assign_list Flex.set_q_setpoint qs df ;;
   let df := imul_where (Flex.et_is "load") Flex.q_setpoint
               Flex.set_q_setpoint (of_int (-1)) df in
   bs <- apply (lookup net Elem.bus) df ;;
   assign_list Flex.set_bus bs df)%result.

(** Lines 14-19: switches closed, voltage limits, line ratings, and the
    generation of every unit but the last scaled by 30. *)
Definition template_edits (net : Net) : Net :=
  let net :=
    set_switch (assign_scalar (fun v _ => {| closed := v |}) true (switch net))
      net in
  let net :=
    set_bus (assign_scalar
               (fun v r => {| max_vm_pu := Some v; min_vm_pu := min_vm_pu r |})
               (lit 1.05) (bus net)) net in
  let net :=
    set_bus (assign_scalar
               (fun v r => {| max_vm_pu := max_vm_pu r; min_vm_pu := Some v |})
               (lit 0.95) (bus net)) net in
  let net :=
    set_line (assign_scalar
                (fun v r => {| max_loading_percent := Some v;
                               c_nf_per_km := c_nf_per_km r |})
                (Int 100) (line net)) net in
  let net :=
    set_line (assign_scalar
                (fun v r => {| max_loading_percent := max_loading_percent r;
                               c_nf_per_km := v |})
                (Int 0) (line net)) net in
  set_sgen (iloc_but_last_imul (of_int 30) (sgen net)) net.

Definition test_case4 : M Net :=
  let net := template_edits (create_cigre_network_mv "pv_wind") in
  ld <- lift (assign_list (fun v => on_row (Elem.set_controllable v))
                controllable_flags (load net)) ;;
  let net := set_load ld net in
  let number_of_dispatchable_loads :=
    sum_true (column Elem.is_controllable (load net)) in
  let df :=
    repeat Flex.nan (number_of_dispatchable_loads + length (sgen net)) in
  df <- lift (controllable_loads net number_of_dispatchable_loads df) ;;
  df <- PVs net number_of_dispatchable_loads df ;;
  df <- random_costs df ;;
  df <- lift (setpoints net df) ;;
  ret (set_flexibility df net).

(** *** The rows of the table, written out

    The script fills the table column by column.  Read row by row, a
    controllable load first gets the cells of [load_base] and a static
    generator those of [sgen_base]; [with_costs] adds the two costs and
    [finish] the setpoints and the bus.  [load_fpu] and [sgen_fpu] are the
    finished rows, cell by cell; [u], [d] and [f] are the draws behind the
    two costs and the reactive-power box.  [run_ok] and [run_inv] below prove
    that [test_case4] returns exactly [expected_net]. *)

Definition load_base (ir : Z * Elem.row) : Flex.row :=
  Flex.set_FPU_info
    [("pf", np_cos (np_arctan (Elem.q_mvar (snd ir) / Elem.p_mw (snd ir))%f64))]
    (Flex.set_FPU_type "load"
       (Flex.set_down_quantity (Elem.p_mw (snd ir) / of_int 2)%f64
          (Flex.set_up_quantity (Elem.p_mw (snd ir) / of_int 2)%f64
             (Flex.set_et "load" (Flex.set_element (fst ir) Flex.nan))))).

Definition sgen_base (ir : Z * Elem.row) (f : float64) : Flex.row :=
  Flex.set_FPU_info
    [("q_min", (of_int (-1) - f)%f64); ("q_max", (of_int 1 + f)%f64)]
    (Flex.set_FPU_type "Box"
       (Flex.set_down_quantity (Elem.p_mw (snd ir))
          (Flex.set_up_quantity (lit 1.1 * Elem.p_mw (snd ir))%f64
             (Flex.set_et "sgen" (Flex.set_element (fst ir) Flex.nan))))).

Definition with_costs (x : Flex.row) (ud : float64 * float64) : Flex.row :=
  Flex.set_down_cost (of_int 100 - of_int 20 * np_round 3 (snd ud))%f64
    (Flex.set_up_cost (of_int 90 + of_int 20 * np_round 3 (fst ud))%f64 x).

Definition lookup_or {V} (net : Net) (col : Elem.row -> V) (d : V)
    (x : Flex.row) : V :=
  match lookup net col x with
  | OK v => v
  | Raise _ => d
  end.

Definition finish (net : Net) (x : Flex.row) : Flex.row :=
  let x :=
    imul_cell (Flex.et_is "load") Flex.p_setpoint Flex.set_p_setpoint
      (of_int (-1))
      (Flex.set_p_setpoint (lookup_or net Elem.p_mw (of_int 0) x) x) in
  let x :=
    imul_cell (Flex.et_is "load") Flex.q_setpoint Flex.set_q_setpoint
      (of_int (-1))
      (Flex.set_q_setpoint (lookup_or net Elem.q_mvar (of_int 0) x) x) in
  Flex.set_bus (lookup_or net Elem.bus 0%Z x) x.

(** A row whose [et] and [element] cells name a row of a device table. *)
Definition resolvable (net : Net) (x : Flex.row) : Prop :=
  exists r, lookup net (fun r => r) x = OK r.

Definition resolve (t : table) (label : Z) : option Elem.row :=
  match loc t label with
  | OK r => Some r
  | Raise _ => None
  end.

Definition load_fpu (t : table) (ir : Z * Elem.row) (ud : float64 * float64)
    : Flex.row :=
  let r := snd ir in
  let dev := resolve t (fst ir) in
  {| Flex.element := Some (fst ir);
     Flex.et := Some "load";
     Flex.up_quantity := Some (Elem.p_mw r / of_int 2)%f64;
     Flex.up_cost := Some (of_int 90 + of_int 20 * np_round 3 (fst ud))%f64;
     Flex.down_quantity := Some (Elem.p_mw r / of_int 2)%f64;
     Flex.down_cost := Some (of_int 100 - of_int 20 * np_round 3 (snd ud))%f64;
     Flex.FPU_type := Some "load";
     Flex.FPU_info :=
       Some [("pf", np_cos (np_arctan (Elem.q_mvar r / Elem.p_mw r)%f64))];
     Flex.p_setpoint :=
       option_map (fun r' => Elem.p_mw r' * of_int (-1))%f64 dev;
     Flex.q_setpoint :=
       option_map (fun r' => Elem.q_mvar r' * of_int (-1))%f64 dev;
     Flex.bus := option_map Elem.bus dev |}.

Definition sgen_fpu (t : table) (irf : Z * Elem.row * float64)
    (ud : float64 * float64) : Flex.row :=
  let r := snd (fst irf) in
  let f := np_round 3 (snd irf) in
  let dev := resolve t (fst (fst irf)) in
  {| Flex.element := Some (fst (fst irf));
     Flex.et := Some "sgen";
     Flex.up_quantity := Some (lit 1.1 * Elem.p_mw r)%f64;
     Flex.up_cost := Some (of_int 90 + of_int 20 * np_round 3 (fst ud))%f64;
     Flex.down_quantity := Some (Elem.p_mw r);
     Flex.down_cost := Some (of_int 100 - of_int 20 * np_round 3 (snd ud))%f64;
     Flex.FPU_type := Some "Box";
     Flex.FPU_info :=
       Some [("q_min", (of_int (-1) - f)%f64); ("q_max", (of_int 1 + f)%f64)];
     Flex.p_setpoint := option_map Elem.p_mw dev;
     Flex.q_setpoint := option_map Elem.q_mvar dev;
     Flex.bus := option_map Elem.bus dev |}.

(** The draws of the three seeded calls. *)
Definition fuzz_draws : list float64 :=
  fst (np_random_random 9 (np_random_seed 0)).
Definition up_draws : list float64 :=
  fst (np_random_random 13 (np_random_seed 1)).
Definition down_draws : list float64 :=
  fst (np_random_random 13 (np_random_seed 2)).

Definition expected_flexibility (ld sg : table) : list Flex.row :=
  let ctrl := controllable_rows ld in
  let costs := combine up_draws down_draws in
  zip_with (load_fpu ld) ctrl costs
  ++ zip_with (sgen_fpu sg) (combine sg fuzz_draws)
       (skipn (length ctrl) costs).

Definition expected_load (ld : table) : table :=
  zip_upd (fun v => on_row (Elem.set_controllable v)) controllable_flags ld.

Definition expected_net : Net :=
  let net := create_cigre_network_mv "pv_wind" in
  let sg := iloc_but_last_imul (of_int 30) (sgen net) in
  let ld := expected_load (load net) in
  {| switch := map (fun _ => {| closed := true |}) (switch net);
     bus := map (fun _ => {| max_vm_pu := Some (lit 1.05);
                             min_vm_pu := Some (lit 0.95) |}) (bus net);
     line := map (fun _ => {| max_loading_percent := Some (Int 100);
                              c_nf_per_km := Int 0 |}) (line net);
     sgen := sg;
     load := ld;
     flexibility := expected_flexibility ld sg |}.
End Script.

(** ** A sample instance

    A network of the template's shape (18 loads, 9 static generators, index
    labels 0, 1, ...) and a small numpy stand-in, on which the script can be
    run inside Rocq. *)

Module Sample.
Definition elem (b : Z) (p q : PrimFloat.float) : Elem.row :=
  {| Elem.bus := b; Elem.p_mw := lit p; Elem.q_mvar := lit q;
     Elem.controllable := None |}.

Fixpoint enumerate_from (i : Z) (rs : list Elem.row) : table :=
  match rs with
  | [] => []
  | r :: rs' => (i, r) :: enumerate_from (i + 1) rs'
  end.

Definition loads : table :=
  enumerate_from 0
    [elem 1 14.994 3.044; elem 3 0.276 0.069; elem 4 0.432 0.108;
     elem 5 0.728 0.182; elem 6 0.548 0.137; elem 8 0.587 0.147;
     elem 10 0.475 0.119; elem 11 0.330 0.083; elem 12 14.994 3.044;
     elem 14 0.209 0.052; elem 1 4.845 1.592; elem 3 0.225 0.140;
     elem 7 0.077 0.047; elem 9 0.574 0.356; elem 10 0.068 0.042;
     elem 12 5.016 1.649; elem 13 0.034 0.021; elem 14 0.332 0.205].

Definition sgens : table :=
  enumerate_from 0
    [elem 3 0.02 0; elem 4 0.02 0; elem 5 0.03 0; elem 6 0.03 0;
     elem 8 0.03 0; elem 9 0.03 0; elem 10 0.04 0; elem 11 0.01 0;
     elem 7 1.5 0].

Definition network (with_der : string) : Net :=
  {| switch := repeat {| closed := false |} 8;
     bus := repeat {| max_vm_pu := None; min_vm_pu := None |} 15;
     line := repeat {| max_loading_percent := None;
                       c_nf_per_km := Float (lit 151.1749) |} 15;
     sgen := if String.eqb with_der "pv_wind" then sgens else [];
     load := loads;
     flexibility := [] |}.

(** Draws cycle through a fixed list of values below 1. *)
Definition draws_table : list float64 :=
  map lit [0.5488135; 0.71518937; 0.60276338; 0.54488318; 0.4236548;
           0.64589411; 0.43758721; 0.891773; 0.96366276; 0.38344152;
           0.0; 0.9999; 0.0004; 0.0005; 0.0015; 0.417022]%float.

Definition draw (s i : nat) : float64 :=
  nth ((s + i) mod 16) draws_table (of_int 0).

(** The nearest multiple of a thousandth: how many of the midpoints
    0.0005, 0.0015, ..., 0.9995 lie at or below [x]. *)
Definition round3 (x : float64) : float64 :=
  let midpoint j := (of_int (2 * Z.of_nat j - 1) / of_int 2000)%f64 in
  grid3 (Z.of_nat
           (length (filter (fun j => SFleb (midpoint j) x) (seq 1 1000)))).

#[export] Instance numpy : NumPy :=
  {| rng_state := nat;
     np_random_seed := fun k => (5 * Z.to_nat k + 3)%nat;
     np_random_random := fun n s => (map (draw s) (seq 0 n), (s + n)%nat);
     np_round := fun d x => if Z.eqb d 3 then round3 x else x;
     (* stand-ins whose composition is the power factor of a load *)
     np_arctan := fun t => t;
     np_cos := fun t => (of_int 1 / SF64sqrt (of_int 1 + t * t))%f64 |}.

(** The network that the script returns on the sample, computed. *)
Definition net : Net :=
  Eval vm_compute in
    match test_case4 network 42%nat with
    | OK (n, _) => n
    | Raise _ => network "pv_wind"
    end.
End Sample.

(** The first row of the table returned on the sample is that of a load,
    the fifth that of a static generator. *)
Definition sample_load_fpu : Flex.row :=
  nth 0 (flexibility Sample.net) Flex.nan.
Definition sample_sgen_fpu : Flex.row :=
  nth 4 (flexibility Sample.net) Flex.nan.

(** * Properties *)


(** ** binary64 facts *)

(** *** The sign of a rounded result *)

Lemma nonneg_shape_iff (x : float64) :
  (of_int 0 <= x)%f64 <-> nonneg_shape x.
Proof.
  change (of_int 0) with (S754_zero false).
  destruct x as [s|s| |s m e]; try destruct s; simpl;
    unfold SFleb; simpl; intuition discriminate.
Qed.

Lemma iter_pos_invariant {A} (P : A -> Prop) (f : A -> A) :
  (forall x, P x -> P (f x)) -> forall n x, P x -> P (iter_pos f n x).
Proof.
  intros Hf. induction n as [n IH|n IH|]; intros x Hx; simpl; auto.
Qed.

Lemma shr_1_nonneg (mrs : shr_record) :
  (0 <= shr_m mrs)%Z -> (0 <= shr_m (shr_1 mrs))%Z.
Proof.
  destruct mrs as [m r s]. simpl.
  destruct m as [|[p|p|]|[p|p|]]; simpl; lia.
Qed.

Lemma shr_fexp_nonneg (m e : Z) (l : location) :
  (0 <= m)%Z -> (0 <= shr_m (fst (shr_fexp prec emax m e l)))%Z.
Proof.
  intros Hm. unfold shr_fexp, shr.
  assert (H0 : (0 <= shr_m (shr_record_of_loc m l))%Z)
    by (destruct l as [|[]]; exact Hm).
  destruct (fexp prec emax (Zdigits2 m + e) - e)%Z; simpl; auto.
  apply (iter_pos_invariant (fun mrs => (0 <= shr_m mrs)%Z)); auto.
  apply shr_1_nonneg.
Qed.

Lemma round_nearest_even_nonneg (m : Z) (l : location) :
  (0 <= m)%Z -> (0 <= round_nearest_even m l)%Z.
Proof.
  intros Hm. destruct l as [|[]]; simpl; try lia.
  destruct (Z.even m); lia.
Qed.

Lemma binary_round_aux_nonneg (m e : Z) (l : location) :
  (0 <= m)%Z -> nonneg_shape (binary_round_aux prec emax false m e l).
Proof.
  intros Hm. unfold binary_round_aux.
  pose proof (shr_fexp_nonneg m e l Hm) as H1.
  destruct (shr_fexp prec emax m e l) as [mrs' e']. simpl in H1.
  pose proof (shr_fexp_nonneg _ e' loc_Exact
                (round_nearest_even_nonneg _ (loc_of_shr_record mrs') H1)) as H2.
  destruct (shr_fexp prec emax _ e' loc_Exact) as [mrs'' e'']. simpl in H2.
  destruct (shr_m mrs'') as [|p|p]; [exact I| |lia].
  destruct (e'' <=? emax - prec)%Z; exact I.
Qed.

Lemma mul_nonneg (x y : float64) :
  nonneg_shape x -> nonneg_shape y ->
  (forall s, x <> S754_infinity s) -> (forall s, x <> S754_zero s) ->
  nonneg_shape (x * y)%f64.
Proof.
  intros Hx Hy Hinf Hz.
  destruct x as [s|s| |[] m e]; try contradiction;
    try (exfalso; eapply Hinf; reflexivity);
    try (exfalso; eapply Hz; reflexivity).
  destruct y as [s'|[]| |[] m' e']; try contradiction; simpl; auto.
  apply binary_round_aux_nonneg. lia.
Qed.

Lemma mul_nonneg_l (m : positive) (e : Z) (y : float64) :
  (of_int 0 <= y)%f64 -> (of_int 0 <= S754_finite false m e * y)%f64.
Proof.
  rewrite !nonneg_shape_iff. intros Hy.
  apply mul_nonneg; simpl; auto; discriminate.
Qed.

Lemma mul_nonneg_r (m : positive) (e : Z) (x : float64) :
  (of_int 0 <= x)%f64 -> (of_int 0 <= x * S754_finite false m e)%f64.
Proof.
  rewrite !nonneg_shape_iff. intros Hx.
  destruct x as [s|[]| |[] m' e']; try contradiction; simpl; auto.
  apply binary_round_aux_nonneg. lia.
Qed.

Lemma div_nonneg_r (m : positive) (e : Z) (x : float64) :
  (of_int 0 <= x)%f64 -> (of_int 0 <= x / S754_finite false m e)%f64.
Proof.
  rewrite !nonneg_shape_iff. intros Hx.
  destruct x as [s|[]| |[] m' e']; try contradiction; simpl; auto.
  unfold SFdiv_core_binary.
  set (s := (_ - _ - Z.min _ _)%Z).
  set (m1 := match s with Z.pos _ => Z.shiftl (Z.pos m') s | 0%Z => Z.pos m' | _ => 0%Z end).
  assert (Hm1 : (0 <= m1)%Z).
  { unfold m1. destruct s; try lia. apply Z.shiftl_nonneg. lia. }
  pose proof (Z.div_pos m1 (Z.pos m) Hm1 ltac:(lia)) as Hq.
  unfold Z.div in Hq.
  destruct (Z.div_eucl m1 (Z.pos m)) as [q r]. simpl in Hq.
  apply binary_round_aux_nonneg. exact Hq.
Qed.


Lemma digits2_pos_size (p : positive) : digits2_pos p = Pos.size p.
Proof. induction p; simpl; congruence. Qed.

Lemma digits2_pos_bounds (p : positive) :
  (2 ^ (Z.pos (digits2_pos p) - 1) <= Z.pos p < 2 ^ Z.pos (digits2_pos p))%Z.
Proof.
  rewrite digits2_pos_size.
  pose proof (Pos.size_gt p) as Hgt. pose proof (Pos.size_le p) as Hle.
  apply Pos2Z.pos_lt_pos in Hgt. apply Pos2Z.pos_le_pos in Hle.
  rewrite Pos2Z.inj_pow in Hgt, Hle.
  split; [|exact Hgt].
  assert (E : (2 ^ Z.pos (Pos.size p) = 2 * 2 ^ (Z.pos (Pos.size p) - 1))%Z).
  { rewrite <- Z.pow_succ_r by lia. f_equal. lia. }
  rewrite E in Hle. lia.
Qed.

Lemma shr_1_div2 (mrs : shr_record) :
  (0 <= shr_m mrs)%Z -> shr_m (shr_1 mrs) = (shr_m mrs / 2)%Z.
Proof.
  destruct mrs as [m r s]. cbn [shr_m]. intros Hm.
  rewrite <- Z.div2_div.
  destruct m as [|[p|p|]|p]; try reflexivity. lia.
Qed.

Lemma iter_shr_1 (n : positive) (mrs : shr_record) :
  (0 <= shr_m mrs)%Z ->
  (0 <= shr_m (iter_pos shr_1 n mrs))%Z /\
  shr_m (iter_pos shr_1 n mrs) = (shr_m mrs / 2 ^ Z.pos n)%Z.
Proof.
  revert mrs. induction n as [n IH|n IH|]; intros mrs Hm; cbn [iter_pos].
  - pose proof (shr_1_nonneg mrs Hm) as H1.
    destruct (IH _ H1) as [H2 E2]. destruct (IH _ H2) as [H3 E3].
    split; [exact H3|]. rewrite E3, E2, shr_1_div2 by exact Hm.
    rewrite !Z.div_div by lia. f_equal.
    rewrite (Pos2Z.inj_xI n).
    replace (2 * Z.pos n + 1)%Z with (1 + Z.pos n + Z.pos n)%Z by lia.
    rewrite !Z.pow_add_r by lia. rewrite Z.pow_1_r. ring.
  - destruct (IH _ Hm) as [H2 E2]. destruct (IH _ H2) as [H3 E3].
    split; [exact H3|]. rewrite E3, E2.
    rewrite !Z.div_div by lia. f_equal.
    rewrite (Pos2Z.inj_xO n).
    replace (2 * Z.pos n)%Z with (Z.pos n + Z.pos n)%Z by lia.
    rewrite !Z.pow_add_r by lia. ring.
  - split; [now apply shr_1_nonneg|]. rewrite shr_1_div2 by exact Hm.
    reflexivity.
Qed.

(** Rounding a positive mantissa that is at least one unit in the last place
    of the smallest exponent leaves a positive mantissa. *)
Lemma shr_fexp_pos (p : positive) (e : Z) (l : location) :
  (2 ^ (emin - e) <= Z.pos p)%Z ->
  (1 <= shr_m (fst (shr_fexp prec emax (Z.pos p) e l)))%Z /\
  (emin <= snd (shr_fexp prec emax (Z.pos p) e l))%Z.
Proof.
  intros Hp. unfold shr_fexp, shr. cbn [Zdigits2].
  pose proof (digits2_pos_bounds p) as [Hd _].
  set (d := Z.pos (digits2_pos p)) in *.
  assert (Hm : shr_m (shr_record_of_loc (Z.pos p) l) = Z.pos p)
    by (destruct l as [|[]]; reflexivity).
  unfold fexp, emin in *.
  destruct (Z.max (d + e - prec) (3 - emax - prec) - e)%Z as [|n|n] eqn:En;
    cbn [fst snd].
  - rewrite Hm. lia.
  - destruct (iter_shr_1 n (shr_record_of_loc (Z.pos p) l)) as [_ ->];
      [rewrite Hm; lia|].
    rewrite Hm. split; [|lia].
    apply Z.div_le_lower_bound; [apply Z.pow_pos_nonneg; lia|].
    rewrite Z.mul_1_r.
    destruct (Z.max_spec (d + e - prec) (3 - emax - prec)) as [[_ E]|[_ E]];
      rewrite E in En.
    + replace (Z.pos n) with (3 - emax - prec - e)%Z by lia. exact Hp.
    + apply Z.le_trans with (2 ^ (d - 1))%Z; [|exact Hd].
      apply Z.pow_le_mono_r; unfold prec in *; lia.
  - rewrite Hm. lia.
Qed.

Lemma pos_shape_iff (x : float64) : (of_int 0 < x)%f64 <-> pos_shape x.
Proof.
  change (of_int 0) with (S754_zero false).
  destruct x as [s|s| |s m e]; try destruct s; simpl;
    unfold SFltb; simpl; intuition discriminate.
Qed.

Lemma valid_exp_ok (x : float64) : valid_binary x = true -> exp_ok x.
Proof.
  destruct x as [s|s| |s m e]; cbn [valid_binary exp_ok]; auto.
  unfold bounded, canonical_mantissa, fexp. intros H.
  apply andb_prop in H. destruct H as [H _]. apply Z.eqb_eq in H.
  rewrite <- H. apply Z.le_max_r.
Qed.

Lemma shr_fexp_exp (m e : Z) (l : location) :
  (emin <= snd (shr_fexp prec emax m e l))%Z.
Proof.
  unfold shr_fexp, shr, fexp.
  pose proof (Z.le_max_r (Zdigits2 m + e - prec) emin) as Hmax.
  set (f := Z.max (Zdigits2 m + e - prec) emin) in *.
  destruct (f - e)%Z eqn:E; cbn [snd]; lia.
Qed.

Lemma binary_round_aux_exp (s : bool) (m e : Z) (l : location) :
  exp_ok (binary_round_aux prec emax s m e l).
Proof.
  unfold binary_round_aux.
  destruct (shr_fexp prec emax m e l) as [mrs' e'].
  pose proof (shr_fexp_exp (round_nearest_even (shr_m mrs')
                              (loc_of_shr_record mrs')) e' loc_Exact) as H.
  destruct (shr_fexp prec emax _ e' loc_Exact) as [mrs'' e'']. cbn [snd] in H.
  destruct (shr_m mrs''); [exact I| |exact I].
  destruct (e'' <=? emax - prec)%Z; [exact H|exact I].
Qed.

Lemma mul_exp_ok (x y : float64) : exp_ok (x * y)%f64.
Proof.
  destruct x as [s|s| |s m e], y as [s'|s'| |s' m' e']; try exact I.
  apply binary_round_aux_exp.
Qed.

Lemma binary_round_aux_pos (p : positive) (e : Z) (l : location) :
  (2 ^ (emin - e) <= Z.pos p)%Z ->
  pos_shape (binary_round_aux prec emax false (Z.pos p) e l).
Proof.
  intros Hp. unfold binary_round_aux.
  destruct (shr_fexp_pos p e l Hp) as [H1 He].
  destruct (shr_fexp prec emax (Z.pos p) e l) as [mrs' e'].
  cbn [fst snd] in H1, He.
  assert (Hr : (1 <= round_nearest_even (shr_m mrs') (loc_of_shr_record mrs'))%Z).
  { destruct (loc_of_shr_record mrs') as [|[]]; simpl; try lia.
    destruct (Z.even (shr_m mrs')); lia. }
  destruct (round_nearest_even (shr_m mrs') (loc_of_shr_record mrs'))
    as [|p'|p']; try lia.
  assert (Hp' : (2 ^ (emin - e') <= Z.pos p')%Z).
  { destruct (Z.eq_dec e' emin) as [->|Hne].
    - rewrite Z.sub_diag. simpl. lia.
    - rewrite Z.pow_neg_r by lia. lia. }
  destruct (shr_fexp_pos p' e' loc_Exact Hp') as [H2 _].
  destruct (shr_fexp prec emax (Z.pos p') e' loc_Exact) as [mrs'' e''].
  cbn [fst] in H2.
  destruct (shr_m mrs'') as [|q|q]; try lia.
  destruct (e'' <=? emax - prec)%Z; exact I.
Qed.

(** [1.1 * y] is positive whenever [y] is. *)
Lemma mul_1_1_pos (y : float64) :
  exp_ok y -> (of_int 0 < y)%f64 -> (of_int 0 < lit 1.1 * y)%f64.
Proof.
  rewrite !pos_shape_iff.
  change (lit 1.1) with (S754_finite false 4953959590107546 (-52)).
  destruct y as [s|[]| |[] m e]; try contradiction; intros He _;
    unfold SF64mul, SFmul; cbn [xorb pos_shape exp_ok] in *; [exact I|].
  apply binary_round_aux_pos.
  apply Z.le_trans with (2 ^ 52)%Z.
  - apply Z.pow_le_mono_r; unfold emin, emax, prec in *; lia.
  - rewrite Pos2Z.inj_mul.
    change (2 ^ 52)%Z with 4503599627370496%Z. nia.
Qed.

(** Multiplying by [-1] flips the sign and nothing else. *)
Lemma mul_neg1 (x : float64) :
  valid_binary x = true -> (x * of_int (-1))%f64 = (- x)%f64.
Proof.
  change (of_int (-1)) with (S754_finite true 4503599627370496 (-52)).
  destruct x as [s|s| |s m e]; intros Hv;
    unfold SF64mul, SFmul; cbn [SFopp valid_binary] in *.
  - now destruct s.
  - now destruct s.
  - reflexivity.
  - unfold bounded, canonical_mantissa in Hv.
    apply andb_prop in Hv. destruct Hv as [Hc Hb]. apply Z.eqb_eq in Hc.
    rewrite Pos.mul_comm.
    set (M := (4503599627370496 * m)%positive).
    assert (HM : M = (m~0~0~0~0~0~0~0~0~0~0~0~0~0~0~0~0~0~0~0~0~0~0~0~0~0~0~0~0~0~0~0~0~0~0~0~0~0~0~0~0~0~0~0~0~0~0~0~0~0~0~0~0)%positive)
      by reflexivity.
    assert (Hd : (Z.pos (digits2_pos M) + (e + -52)
                  = Z.pos (digits2_pos m) + e)%Z).
    { rewrite HM. cbn [digits2_pos]. rewrite !Pos2Z.inj_succ. lia. }
    unfold binary_round_aux, shr_fexp. cbn [Zdigits2]. rewrite Hd, Hc.
    replace (e - (e + -52))%Z with 52%Z by lia.
    rewrite HM. cbn [shr shr_record_of_loc iter_pos shr_1 orb].
    cbn [shr_m loc_of_shr_record round_nearest_even Zdigits2].
    replace (e + -52 + 52)%Z with e by lia.
    rewrite Hc, Z.sub_diag. cbn [shr shr_record_of_loc shr_m]. rewrite Hb.
    now destruct s.
Qed.


Lemma float64_eqb_eq (x y : float64) : float64_eqb x y = true -> x = y.
Proof.
  destruct x as [s|s| |s m e], y as [s'|s'| |s' m' e']; simpl;
    try discriminate; try reflexivity.
  - intros H. apply Bool.eqb_prop in H. congruence.
  - intros H. apply Bool.eqb_prop in H. congruence.
  - intros H. apply andb_prop in H. destruct H as [H He].
    apply andb_prop in H. destruct H as [Hs Hm].
    apply Bool.eqb_prop in Hs. apply Pos.eqb_eq in Hm. apply Z.eqb_eq in He.
    congruence.
Qed.

(** A check that holds at each of the 1001 grid points holds on the grid. *)
Lemma on_grid3_forall (chk : float64 -> bool) :
  forallb (fun k => chk (grid3 (Z.of_nat k))) (seq 0 1001) = true ->
  forall x, on_grid3 x -> chk x = true.
Proof.
  intros H x (k & Hk & ->). rewrite forallb_forall in H.
  rewrite <- (Z2Nat.id k) by lia. apply H. apply in_seq. lia.
Qed.

Lemma costs_in_bounds_grid (r : float64) :
  on_grid3 r -> costs_in_bounds r = true.
Proof. apply on_grid3_forall. vm_compute. reflexivity. Qed.

Lemma box_in_bounds_grid (f : float64) :
  on_grid3 f -> box_in_bounds f = true.
Proof. apply on_grid3_forall. vm_compute. reflexivity. Qed.


(** The float operations and the table lookup stay folded while the script
    is unfolded. *)
Arguments SF64add : simpl never.
Arguments SF64sub : simpl never.
Arguments SF64mul : simpl never.
Arguments SF64div : simpl never.
Arguments lit : simpl never.
Arguments of_int : simpl never.
Arguments loc : simpl never.

(** ** pandas assignments *)

Section PandasFacts.
Context {R V : Type}.
Variable upd : V -> R -> R.

Lemma zip_upd_length (vs : list V) (df : list R) :
  length (zip_upd upd vs df) = Nat.min (length vs) (length df).
Proof.
  revert df; induction vs as [|v vs IH]; intros [|r df]; simpl; auto.
Qed.

Lemma assign_list_ok (vs : list V) (df : list R) :
  length vs = length df -> assign_list upd vs df = OK (zip_upd upd vs df).
Proof.
  intros E. unfold assign_list. now rewrite E, Nat.eqb_refl.
Qed.

Lemma assign_list_inv (vs : list V) (df df' : list R) :
  assign_list upd vs df = OK df' ->
  length vs = length df /\ df' = zip_upd upd vs df.
Proof.
  unfold assign_list.
  destruct (Nat.eqb_spec (length vs) (length df)); intros H;
    inversion H; auto.
Qed.
End PandasFacts.

Ltac explode l H :=
  repeat (destruct l as [|? l]; simpl in H; [discriminate H|]);
  destruct l; [clear H|discriminate H].

Section ZipFacts.
Context {A B C : Type}.

Lemma zip_with_length (f : A -> B -> C) xs ys :
  length (zip_with f xs ys) = Nat.min (length xs) (length ys).
Proof. revert ys; induction xs as [|x xs IH]; intros [|y ys]; simpl; auto. Qed.

Lemma zip_with_ext_in (f g : A -> B -> C) xs ys :
  (forall x y, In x xs -> In y ys -> f x y = g x y) ->
  zip_with f xs ys = zip_with g xs ys.
Proof.
  revert ys; induction xs as [|x xs IH]; intros [|y ys] H; simpl; auto.
  f_equal; [apply H; simpl; auto|apply IH; intros; apply H; simpl; auto].
Qed.

Lemma zip_with_app_l (f : A -> B -> C) xs xs' ys :
  (length xs <= length ys)%nat ->
  zip_with f (xs ++ xs') ys
  = zip_with f xs ys ++ zip_with f xs' (skipn (length xs) ys).
Proof.
  revert ys; induction xs as [|x xs IH]; intros ys H; simpl.
  - reflexivity.
  - destruct ys as [|y ys]; simpl in *; [lia|]. f_equal. apply IH. lia.
Qed.

Lemma zip_with_repeat_r (f : A -> B -> C) v k xs :
  (length xs <= k)%nat ->
  zip_with f xs (repeat v k) = map (fun a => f a v) xs.
Proof.
  revert k; induction xs as [|x xs IH]; intros [|k] H; simpl in *; try lia; auto.
  f_equal. apply IH. lia.
Qed.

Lemma in_zip_with (f : A -> B -> C) xs ys z :
  In z (zip_with f xs ys) -> exists x y, In x xs /\ In y ys /\ z = f x y.
Proof.
  revert ys; induction xs as [|x xs IH]; intros [|y ys]; simpl; try tauto.
  intros [<-|H].
  - exists x, y. auto.
  - destruct (IH _ H) as (x' & y' & ? & ? & ?). exists x', y'. auto.
Qed.
End ZipFacts.

Lemma zip_with_map_l {A A' B C} (f : A' -> B -> C) (h : A -> A') xs ys :
  zip_with f (map h xs) ys = zip_with (fun a b => f (h a) b) xs ys.
Proof. revert ys; induction xs; intros [|y ys]; simpl; congruence. Qed.

Lemma zip_with_map_r {A B B' C} (f : A -> B' -> C) (h : B -> B') xs ys :
  zip_with f xs (map h ys) = zip_with (fun a b => f a (h b)) xs ys.
Proof. revert ys; induction xs; intros [|y ys]; simpl; congruence. Qed.

Lemma zip_with_zip_l {A A' B C D} (f : D -> B -> C) (g : A -> A' -> D) xs xs' ys :
  zip_with f (zip_with g xs xs') ys
  = zip_with (fun p b => f (g (fst p) (snd p)) b) (combine xs xs') ys.
Proof.
  revert xs' ys; induction xs as [|x xs IH]; intros [|x' xs'] [|y ys];
    simpl; try reflexivity.
  f_equal. apply IH.
Qed.

Lemma map_zip_with {A B C D} (h : C -> D) (f : A -> B -> C) xs ys :
  map h (zip_with f xs ys) = zip_with (fun a b => h (f a b)) xs ys.
Proof. revert ys; induction xs; intros [|y ys]; simpl; congruence. Qed.

Lemma zip_upd_zip_with {R V} (upd : V -> R -> R) vs df :
  zip_upd upd vs df = zip_with (fun r v => upd v r) df vs.
Proof. revert df; induction vs; intros [|r df]; simpl; congruence. Qed.

(** Two columns assigned one after the other. *)
Lemma zip_with_twice {R V W} (f : R -> V -> R) (g : R -> W -> R) rs vs ws :
  zip_with g (zip_with f rs vs) ws
  = zip_with (fun r vw => g (f r (fst vw)) (snd vw)) rs (combine vs ws).
Proof.
  revert vs ws; induction rs as [|r rs IH]; intros [|v vs] [|w ws];
    simpl; try reflexivity.
  f_equal. apply IH.
Qed.

Section SliceFacts.
Context {R V : Type}.
Variable upd : V -> R -> R.

Lemma loc_upto_app n vs (a b : list R) :
  length a = n ->
  loc_upto upd n vs (a ++ b)
  = rbind (assign_list upd vs a) (fun rs => OK (rs ++ b)).
Proof.
  intros <-. unfold loc_upto.
  now rewrite firstn_app, Nat.sub_diag, firstn_all, app_nil_r, skipn_app,
    Nat.sub_diag, skipn_all.
Qed.

Lemma loc_upto_scalar_app n v (a b : list R) :
  length a = n -> loc_upto_scalar upd n v (a ++ b) = map (upd v) a ++ b.
Proof.
  intros <-. unfold loc_upto_scalar, assign_scalar.
  now rewrite firstn_app, Nat.sub_diag, firstn_all, app_nil_r, skipn_app,
    Nat.sub_diag, skipn_all.
Qed.

Lemma loc_from_app n vs (a b : list R) :
  length a = n ->
  loc_from upd n vs (a ++ b)
  = rbind (assign_list upd vs b) (fun rs => OK (a ++ rs)).
Proof.
  intros <-. unfold loc_from.
  now rewrite firstn_app, Nat.sub_diag, firstn_all, app_nil_r, skipn_app,
    Nat.sub_diag, skipn_all.
Qed.

Lemma loc_from_scalar_app n v (a b : list R) :
  length a = n -> loc_from_scalar upd n v (a ++ b) = a ++ map (upd v) b.
Proof.
  intros <-. unfold loc_from_scalar, assign_scalar.
  now rewrite firstn_app, Nat.sub_diag, firstn_all, app_nil_r, skipn_app,
    Nat.sub_diag, skipn_all.
Qed.

Lemma assign_list_map {S} (h : S -> V) (g : S -> R) src :
  assign_list upd (map h src) (map g src)
  = OK (map (fun a => upd (h a) (g a)) src).
Proof.
  rewrite assign_list_ok by now rewrite !length_map.
  f_equal. induction src; simpl; congruence.
Qed.

Lemma loc_from_inv n vs df df' :
  loc_from upd n vs df = OK df' ->
  length vs = (length df - n)%nat /\
  ((n <= length df)%nat -> length df' = length df).
Proof.
  unfold loc_from.
  destruct (assign_list upd vs (skipn n df)) as [rs|] eqn:E; [|discriminate].
  apply assign_list_inv in E. destruct E as [E ->]. simpl.
  intros H; inversion H; subst.
  rewrite length_skipn in E. split; [exact E|].
  intros Hn. rewrite length_app, zip_upd_length, length_firstn, length_skipn.
  lia.
Qed.
End SliceFacts.

Lemma apply_ok {R V} (func : R -> result V) (g : R -> V) df :
  (forall x, In x df -> func x = OK (g x)) -> apply func df = OK (map g df).
Proof.
  induction df as [|r df IH]; simpl; intros H; [reflexivity|].
  rewrite (H r) by auto. simpl. rewrite IH by auto. reflexivity.
Qed.

Section Stages.
Context {np : NumPy} {spec : NumPySpec np}.

Lemma sum_true_controllable (t : table) :
  sum_true (column Elem.is_controllable t) = length (controllable_rows t).
Proof.
  unfold sum_true, column, controllable_rows.
  induction t as [|ir t IH]; simpl; [reflexivity|].
  destruct (Elem.is_controllable (snd ir)); simpl; congruence.
Qed.

Lemma controllable_loads_ok (net : Net) (b : list Flex.row) :
  let ctrl := controllable_rows (load net) in
  controllable_loads net (length ctrl) (repeat Flex.nan (length ctrl) ++ b)
  = OK (map load_base ctrl ++ b).
Proof.
  intros ctrl. unfold controllable_loads. fold ctrl.
  rewrite <- map_const.
  unfold index, column.
  rewrite loc_upto_app, assign_list_map by apply length_map. cbn [rbind].
  rewrite loc_upto_scalar_app, map_map by apply length_map.
  rewrite loc_upto_app, assign_list_map by apply length_map. cbn [rbind].
  rewrite loc_upto_app, assign_list_map by apply length_map. cbn [rbind].
  rewrite loc_upto_scalar_app, map_map by apply length_map.
  rewrite map_map, map_map.
  rewrite loc_upto_app, assign_list_map by apply length_map. cbn [rbind].
  reflexivity.
Qed.

Lemma PVs_ok (net : Net) (n : nat) (a : list Flex.row) (s : rng_state) :
  length a = n -> length (sgen net) = 9%nat ->
  PVs net n (a ++ repeat Flex.nan (length (sgen net))) s
  = OK (a ++ zip_with sgen_base (sgen net) (map (np_round 3) fuzz_draws),
        snd (np_random_random 9 (np_random_seed 0))).
Proof.
  intros Ha H9. unfold PVs, bind, lift, seed, random.
  rewrite <- map_const. unfold index, column.
  rewrite loc_from_app, assign_list_map by exact Ha. cbn [rbind].
  rewrite loc_from_scalar_app, map_map by exact Ha.
  rewrite loc_from_app, assign_list_map by exact Ha. cbn [rbind].
  rewrite loc_from_app, assign_list_map by exact Ha. cbn [rbind].
  cbn [Nat.add Nat.eqb negb repeat app map].
  rewrite loc_from_app by exact Ha.
  rewrite assign_list_ok by (now rewrite length_map, H9).
  cbn [rbind].
  unfold fuzz_draws.
  pose proof (random_length 9 (np_random_seed 0)) as Lf.
  destruct (np_random_random 9 (np_random_seed 0)) as [fuzz sf].
  cbn [fst snd] in *.
  rewrite loc_from_app by exact Ha.
  rewrite assign_list_ok
    by (rewrite zip_upd_length, !length_map, H9, Lf; reflexivity).
  cbn [rbind]. do 3 f_equal.
  rewrite !zip_upd_zip_with, zip_with_map_l.
  change ["Box"; "Box"; "Box"; "Box"; "Box"; "Box"; "Box"; "Box"; "Box"]
    with (repeat "Box" 9).
  rewrite zip_with_repeat_r by (rewrite H9; lia).
  rewrite zip_with_map_l, zip_with_map_r.
  reflexivity.
Qed.

Lemma random_costs_ok (df : list Flex.row) (s : rng_state) :
  length df = 13%nat ->
  random_costs df s
  = OK (zip_with with_costs df (combine up_draws down_draws),
        snd (np_random_random 13 (np_random_seed 2))).
Proof.
  intros L. unfold random_costs, bind, lift, seed, random, up_draws, down_draws.
  rewrite L.
  pose proof (random_length 13 (np_random_seed 1)) as Lu.
  destruct (np_random_random 13 (np_random_seed 1)) as [ups su].
  cbn [fst snd] in *.
  rewrite assign_list_ok by (now rewrite length_map, Lu, L).
  rewrite zip_upd_length, length_map, Lu, L. cbn [Nat.min].
  pose proof (random_length 13 (np_random_seed 2)) as Ld.
  destruct (np_random_random 13 (np_random_seed 2)) as [downs sd].
  cbn [fst snd] in *.
  rewrite assign_list_ok
    by (now rewrite zip_upd_length, !length_map, Lu, Ld, L).
  do 2 f_equal.
  rewrite !zip_upd_zip_with, !zip_with_map_r, zip_with_twice.
  reflexivity.
Qed.

Lemma lookup_col {V} (net : Net) (col : Elem.row -> V) (x : Flex.row) :
  lookup net col x = rbind (lookup net (fun r => r) x) (fun r => OK (col r)).
Proof.
  unfold lookup. destruct (getattr net (Flex.et x)); simpl; [|reflexivity].
  destruct (Flex.element x); simpl; [|reflexivity].
  destruct (loc a z); reflexivity.
Qed.

Lemma lookup_resolvable {V} (net : Net) (col : Elem.row -> V) d x :
  resolvable net x -> lookup net col x = OK (lookup_or net col d x).
Proof.
  intros [r Hr]. unfold lookup_or. rewrite lookup_col, Hr. reflexivity.
Qed.

Lemma resolvable_congr (net : Net) (x y : Flex.row) :
  Flex.et y = Flex.et x -> Flex.element y = Flex.element x ->
  resolvable net x -> resolvable net y.
Proof.
  intros E1 E2 [r Hr]. exists r. unfold lookup in *. now rewrite E1, E2.
Qed.

Lemma imul_cell_keeps mask get set c (x : Flex.row) :
  (forall v y, Flex.et (set v y) = Flex.et y /\
               Flex.element (set v y) = Flex.element y) ->
  Flex.et (imul_cell mask get set c x) = Flex.et x /\
  Flex.element (imul_cell mask get set c x) = Flex.element x.
Proof.
  intros H. unfold imul_cell. destruct (mask x); [|auto].
  destruct (get x); auto.
Qed.

Lemma setpoints_ok (net : Net) (df : list Flex.row) :
  Forall (resolvable net) df -> setpoints net df = OK (map (finish net) df).
Proof.
  intros Hdf. rewrite Forall_forall in Hdf. unfold setpoints, imul_where.
  rewrite (apply_ok _ (lookup_or net Elem.p_mw (of_int 0)))
    by (intros x Hx; apply lookup_resolvable; auto).
  cbn [rbind].
  rewrite <- (map_id df) at 2. rewrite assign_list_map. cbn [rbind].
  rewrite map_map.
  set (f1 := fun x => imul_cell _ Flex.p_setpoint _ _ _).
  assert (K1 : forall x, Flex.et (f1 x) = Flex.et x /\
                         Flex.element (f1 x) = Flex.element x).
  { intros x. unfold f1.
    destruct (imul_cell_keeps (Flex.et_is "load") Flex.p_setpoint
                Flex.set_p_setpoint (of_int (-1))
                (Flex.set_p_setpoint (lookup_or net Elem.p_mw (of_int 0) x) x))
      as [-> ->]; [intros; split; reflexivity|split; reflexivity]. }
  rewrite (apply_ok _ (lookup_or net Elem.q_mvar (of_int 0))).
  2:{ intros y Hy. apply in_map_iff in Hy. destruct Hy as (x & <- & Hx).
      apply lookup_resolvable.
      apply (resolvable_congr net x); [apply K1|apply K1|auto]. }
  cbn [rbind].
  rewrite <- (map_id (map f1 df)) at 2. rewrite assign_list_map. cbn [rbind].
  rewrite !map_map.
  set (f2 := fun x => imul_cell _ Flex.q_setpoint _ _ _).
  assert (K2 : forall x, Flex.et (f2 x) = Flex.et x /\
                         Flex.element (f2 x) = Flex.element x).
  { intros x. unfold f2.
    destruct (imul_cell_keeps (Flex.et_is "load") Flex.q_setpoint
                Flex.set_q_setpoint (of_int (-1))
                (Flex.set_q_setpoint
                   (lookup_or net Elem.q_mvar (of_int 0) (f1 x)) (f1 x)))
      as [-> ->]; [intros; split; reflexivity|]. apply K1. }
  rewrite (apply_ok _ (lookup_or net Elem.bus 0%Z)).
  2:{ intros y Hy. apply in_map_iff in Hy. destruct Hy as (x & <- & Hx).
      apply lookup_resolvable.
      apply (resolvable_congr net x); [apply K2|apply K2|auto]. }
  cbn [rbind].
  rewrite <- (map_id (map f2 df)) at 2. rewrite assign_list_map.
  rewrite !map_map. reflexivity.
Qed.

Variable create_cigre_network_mv : string -> Net.
#[local] Abbreviation tmpl := (create_cigre_network_mv "pv_wind").
#[local] Abbreviation test_case4 := (test_case4 create_cigre_network_mv).
#[local] Abbreviation expected_net := (expected_net create_cigre_network_mv).

Lemma iloc_but_last_imul_length c t :
  length (iloc_but_last_imul c t) = length t.
Proof.
  unfold iloc_but_last_imul.
  rewrite length_app, length_map, length_firstn, length_skipn. lia.
Qed.

Lemma controllable_rows_expected (ld : table) :
  length ld = 18%nat -> length (controllable_rows (expected_load ld)) = 4%nat.
Proof. intros H. explode ld H. reflexivity. Qed.

Lemma loc_in (t : table) (ir : Z * Elem.row) :
  In ir t -> exists r, loc t (fst ir) = OK r /\ In (fst ir, r) t.
Proof.
  intros H. unfold loc.
  destruct (find (fun jr => Z.eqb (fst jr) (fst ir)) t) as [jr|] eqn:E.
  - apply find_some in E. destruct E as [Hin E]. apply Z.eqb_eq in E.
    exists (snd jr). split; [reflexivity|]. rewrite <- E. now destruct jr.
  - apply (find_none _ _ E) in H. now rewrite Z.eqb_refl in H.
Qed.

Lemma row_ext (x y : Flex.row) :
  Flex.element x = Flex.element y -> Flex.et x = Flex.et y ->
  Flex.up_quantity x = Flex.up_quantity y -> Flex.up_cost x = Flex.up_cost y ->
  Flex.down_quantity x = Flex.down_quantity y ->
  Flex.down_cost x = Flex.down_cost y -> Flex.FPU_type x = Flex.FPU_type y ->
  Flex.FPU_info x = Flex.FPU_info y -> Flex.p_setpoint x = Flex.p_setpoint y ->
  Flex.q_setpoint x = Flex.q_setpoint y -> Flex.bus x = Flex.bus y -> x = y.
Proof. destruct x, y; simpl; congruence. Qed.

Lemma lookup_at {V} (net : Net) (col : Elem.row -> V) x name t i r :
  Flex.et x = Some name -> getattr net (Some name) = OK t ->
  Flex.element x = Some i -> loc t i = OK r ->
  lookup net col x = OK (col r).
Proof.
  intros E1 E2 E3 E4. unfold lookup.
  rewrite E1, E2, E3. simpl. rewrite E4. reflexivity.
Qed.

Lemma lookup_or_at {V} (net : Net) (col : Elem.row -> V) d x name t i r :
  Flex.et x = Some name -> getattr net (Some name) = OK t ->
  Flex.element x = Some i -> loc t i = OK r ->
  lookup_or net col d x = col r.
Proof.
  intros E1 E2 E3 E4. unfold lookup_or.
  now rewrite (lookup_at net col x name t i r).
Qed.

Lemma finish_load (net : Net) ir ud :
  In ir (load net) ->
  finish net (with_costs (load_base ir) ud) = load_fpu (load net) ir ud.
Proof.
  intros H. destruct (loc_in _ _ H) as (r & E & _).
  unfold finish. cbv zeta.
  rewrite (lookup_or_at net Elem.p_mw _ _ "load" (load net) (fst ir) r)
    by (reflexivity || exact E).
  rewrite (lookup_or_at net Elem.q_mvar _ _ "load" (load net) (fst ir) r)
    by (reflexivity || exact E).
  rewrite (lookup_or_at net Elem.bus _ _ "load" (load net) (fst ir) r)
    by (reflexivity || exact E).
  unfold load_fpu, resolve. rewrite E.
  apply row_ext; reflexivity.
Qed.

Lemma finish_sgen (net : Net) ir f ud :
  In ir (sgen net) ->
  finish net (with_costs (sgen_base ir (np_round 3 f)) ud)
  = sgen_fpu (sgen net) (ir, f) ud.
Proof.
  intros H. destruct (loc_in _ _ H) as (r & E & _).
  unfold finish. cbv zeta.
  rewrite (lookup_or_at net Elem.p_mw _ _ "sgen" (sgen net) (fst ir) r)
    by (reflexivity || exact E).
  rewrite (lookup_or_at net Elem.q_mvar _ _ "sgen" (sgen net) (fst ir) r)
    by (reflexivity || exact E).
  rewrite (lookup_or_at net Elem.bus _ _ "sgen" (sgen net) (fst ir) r)
    by (reflexivity || exact E).
  unfold sgen_fpu, resolve. cbn [fst snd]. rewrite E.
  apply row_ext; reflexivity.
Qed.

Lemma resolvable_load (net : Net) ir ud :
  In ir (load net) -> resolvable net (with_costs (load_base ir) ud).
Proof.
  intros H. destruct (loc_in _ _ H) as (r & E & _). exists r.
  apply (lookup_at net (fun r => r) _ "load" (load net) (fst ir) r);
    reflexivity || exact E.
Qed.

Lemma resolvable_sgen (net : Net) ir f ud :
  In ir (sgen net) -> resolvable net (with_costs (sgen_base ir f) ud).
Proof.
  intros H. destruct (loc_in _ _ H) as (r & E & _). exists r.
  apply (lookup_at net (fun r => r) _ "sgen" (sgen net) (fst ir) r);
    reflexivity || exact E.
Qed.

Lemma bind_lift_ok {A B} (r : result A) (a : A) (k : A -> M B) s :
  r = OK a -> bind (lift r) k s = k a s.
Proof. intros ->. reflexivity. Qed.

Lemma bind_ok {A B} (m : M A) (a : A) (k : A -> M B) s s1 :
  m s = OK (a, s1) -> bind m k s = k a s1.
Proof. unfold bind. intros ->. reflexivity. Qed.

Lemma template_edits_eq (net : Net) :
  template_edits net
  = {| switch := map (fun _ => {| closed := true |}) (switch net);
       bus := map (fun _ => {| max_vm_pu := Some (lit 1.05);
                               min_vm_pu := Some (lit 0.95) |}) (bus net);
       line := map (fun _ => {| max_loading_percent := Some (Int 100);
                                c_nf_per_km := Int 0 |}) (line net);
       sgen := iloc_but_last_imul (of_int 30) (sgen net);
       load := load net;
       flexibility := flexibility net |}.
Proof.
  destruct net as [sw bs ln sg ld fx]. unfold template_edits.
  cbn [set_switch set_bus set_line set_sgen switch bus line sgen load
       flexibility].
  unfold assign_scalar. rewrite !map_map. reflexivity.
Qed.

Lemma run_ok (s : rng_state) :
  length (load tmpl) = 18%nat -> length (sgen tmpl) = 9%nat ->
  test_case4 s
  = OK (expected_net, snd (np_random_random 13 (np_random_seed 2))).
Proof.
  intros H18 H9.
  unfold test_case4, expected_net.
  rewrite template_edits_eq.
  pose proof (iloc_but_last_imul_length (of_int 30) (sgen tmpl)) as Hsg.
  rewrite H9 in Hsg.
  set (sg := iloc_but_last_imul (of_int 30) (sgen tmpl)) in *.
  cbv zeta. cbn [load].
  erewrite bind_lift_ok by (apply assign_list_ok; rewrite H18; reflexivity).
  fold (expected_load (load tmpl)).
  pose proof (controllable_rows_expected _ H18) as H4.
  set (ld := expected_load (load tmpl)) in *.
  unfold set_load. cbn [switch bus line sgen load flexibility].
  rewrite sum_true_controllable, repeat_app.
  match goal with
  | |- context [controllable_loads ?n _ _] => set (net := n)
  end.
  change ld with (load net) at 1 2 3.
  erewrite bind_lift_ok by apply controllable_loads_ok.
  change sg with (sgen net) at 1.
  erewrite bind_ok by (apply PVs_ok; [now rewrite length_map|exact Hsg]).
  erewrite bind_ok
    by (apply random_costs_ok;
        rewrite length_app, length_map, zip_with_length, length_map;
        unfold fuzz_draws; rewrite random_length; cbn [load sgen net];
        rewrite H4, Hsg; reflexivity).
  erewrite bind_lift_ok.
  2:{ apply setpoints_ok. apply Forall_forall. intros x Hx.
      apply in_zip_with in Hx. destruct Hx as (b & ud & Hb & _ & ->).
      apply in_app_or in Hb. destruct Hb as [Hb|Hb].
      - apply in_map_iff in Hb. destruct Hb as (ir & <- & Hir).
        apply resolvable_load. unfold controllable_rows in Hir.
        apply filter_In in Hir. tauto.
      - apply in_zip_with in Hb. destruct Hb as (ir & f & Hir & _ & ->).
        now apply resolvable_sgen. }
  unfold ret, set_flexibility.
  cbn [switch bus line sgen load flexibility net].
  do 3 f_equal.
  unfold expected_flexibility.
  assert (Hc : length (combine up_draws down_draws) = 13%nat).
  { unfold up_draws, down_draws.
    now rewrite length_combine, !random_length. }
  rewrite map_zip_with, zip_with_app_l by (rewrite length_map, H4, Hc; lia).
  rewrite length_map. f_equal.
  - rewrite zip_with_map_l. apply zip_with_ext_in. intros ir ud Hir _.
    apply (finish_load net). unfold controllable_rows in Hir.
    apply filter_In in Hir. tauto.
  - rewrite zip_with_map_r, zip_with_zip_l. apply zip_with_ext_in.
    intros [ir f] ud Hir _. apply in_combine_l in Hir.
    apply (finish_sgen net). exact Hir.
Qed.
End Stages.

(** ** What a run returns *)


Section Run.
Context {np : NumPy} {spec : NumPySpec np}.
Variable create_cigre_network_mv : string -> Net.
#[local] Abbreviation tmpl := (create_cigre_network_mv "pv_wind").
#[local] Abbreviation test_case4 := (test_case4 create_cigre_network_mv).
#[local] Abbreviation expected_net := (expected_net create_cigre_network_mv).

(** The "PVs" block returns only on a table of nine generators. *)
Lemma PVs_ok_length net n df df' s s1 :
  PVs net n df s = OK (df', s1) -> (n <= length df)%nat ->
  length (sgen net) = 9%nat.
Proof.
  unfold PVs, bind, lift. intros H Hn.
  destruct (loc_from Flex.set_element _ _ _) as [d1|] eqn:E1; [|discriminate].
  apply loc_from_inv in E1. destruct E1 as [L1 K1]. specialize (K1 Hn).
  unfold index in L1. rewrite length_map in L1.
  destruct (loc_from Flex.set_up_quantity _ _ _) as [d2|] eqn:E2;
    [|discriminate].
  apply loc_from_inv in E2. destruct E2 as [L2 K2].
  assert (Ls : length (loc_from_scalar Flex.set_et n "sgen" d1) = length d1).
  { unfold loc_from_scalar, assign_scalar.
    rewrite length_app, length_map, length_firstn, length_skipn. lia. }
  rewrite Ls in K2, L2.
  destruct (loc_from Flex.set_down_quantity _ _ _) as [d3|] eqn:E3;
    [|discriminate].
  apply loc_from_inv in E3. destruct E3 as [L3 K3].
  cbn [negb Nat.eqb Nat.add] in H.
  destruct (loc_from Flex.set_FPU_type _ _ _) as [d4|] eqn:E4; [|discriminate].
  apply loc_from_inv in E4. destruct E4 as [L4 K4].
  rewrite length_app, !repeat_length in L4. cbn [Nat.add] in L4.
  lia.
Qed.

Lemma run_inv (s s' : rng_state) (net : Net) :
  test_case4 s = OK (net, s') ->
  length (load tmpl) = 18%nat /\ length (sgen tmpl) = 9%nat /\
  net = expected_net /\ s' = snd (np_random_random 13 (np_random_seed 2)).
Proof.
  intros H.
  assert (H18 : length (load tmpl) = 18%nat).
  { unfold test_case4 in H. rewrite template_edits_eq in H.
    cbv zeta in H. cbn [load] in H. unfold bind at 1, lift at 1 in H.
    destruct (assign_list _ controllable_flags _) as [ld|] eqn:E;
      [|discriminate].
    apply assign_list_inv in E. destruct E as [E _]. symmetry. exact E. }
  assert (H9 : length (sgen tmpl) = 9%nat).
  { unfold test_case4 in H. rewrite template_edits_eq in H.
    cbv zeta in H. cbn [load] in H.
    erewrite bind_lift_ok in H
      by (apply assign_list_ok; rewrite H18; reflexivity).
    unfold set_load in H. cbn [switch bus line sgen load flexibility] in H.
    rewrite sum_true_controllable, repeat_app in H.
    match type of H with
    | context [controllable_loads ?n _ _] => set (net0 := n) in H
    end.
    change (zip_upd _ controllable_flags (load tmpl)) with (load net0) in H.
    erewrite bind_lift_ok in H by apply controllable_loads_ok.
    unfold bind at 1 in H.
    destruct (PVs net0 _ _ s) as [[df2 s2]|] eqn:EPV; [|discriminate].
    apply PVs_ok_length in EPV.
    - cbn [sgen net0] in EPV. now rewrite iloc_but_last_imul_length in EPV.
    - rewrite length_app, length_map. lia. }
  rewrite (run_ok create_cigre_network_mv s H18 H9) in H.
  inversion H. auto.
Qed.

(** *** The generator state on entry does not matter *)

Lemma oblivious_bind {A B} (m : M A) (k : A -> M B) :
  oblivious m -> oblivious (bind m k).
Proof. intros H s0 s1. unfold bind. now rewrite (H s0 s1). Qed.

Lemma oblivious_bind_lift {A B} (r : result A) (k : A -> M B) :
  (forall a, oblivious (k a)) -> oblivious (bind (lift r) k).
Proof.
  intros H s0 s1. unfold bind, lift. destruct r; [apply H|reflexivity].
Qed.

Lemma oblivious_bind_seed {B} (n : Z) (k : unit -> M B) :
  oblivious (bind (seed n) k).
Proof. intros s0 s1. reflexivity. Qed.

Lemma PVs_oblivious net n df : oblivious (PVs net n df).
Proof.
  unfold PVs. cbv zeta.
  apply oblivious_bind_lift; intros d1.
  apply oblivious_bind_lift; intros d2.
  apply oblivious_bind_lift; intros d3.
  cbn [negb Nat.eqb Nat.add].
  apply oblivious_bind_lift; intros d4.
  apply oblivious_bind_seed.
Qed.

Lemma test_case4_oblivious : oblivious test_case4.
Proof.
  unfold test_case4. cbv zeta.
  apply oblivious_bind_lift; intros ld.
  apply oblivious_bind_lift; intros df.
  apply oblivious_bind. apply PVs_oblivious.
Qed.
End Run.


(** ** The device tables after the edits *)

Lemma in_skipn {A} (n : nat) (l : list A) (x : A) :
  In x (skipn n l) -> In x l.
Proof.
  intros H. rewrite <- (firstn_skipn n l). apply in_or_app. now right.
Qed.

Lemma index_iloc_but_last_imul (c : float64) (t : table) :
  index (iloc_but_last_imul c t) = index t.
Proof.
  unfold index, iloc_but_last_imul.
  rewrite map_app, map_map. cbn [on_row fst].
  rewrite <- map_app, firstn_skipn. reflexivity.
Qed.

Lemma nth_error_iloc_but_last_imul (c : float64) (t : table) (k : nat) :
  nth_error (iloc_but_last_imul c t) k
  = if Nat.ltb k (length t - 1) then
      option_map (on_row (fun r => Elem.set_p_mw (Elem.p_mw r * c)%f64 r))
        (nth_error t k)
    else nth_error t k.
Proof.
  unfold iloc_but_last_imul.
  assert (L : length (firstn (length t - 1) t) = (length t - 1)%nat)
    by (rewrite length_firstn; lia).
  destruct (Nat.ltb_spec k (length t - 1)) as [Hk|Hk].
  - rewrite nth_error_app1 by (rewrite length_map, L; exact Hk).
    rewrite nth_error_map, nth_error_firstn.
    apply Nat.ltb_lt in Hk. now rewrite Hk.
  - rewrite nth_error_app2 by (rewrite length_map, L; exact Hk).
    rewrite length_map, L, nth_error_skipn. f_equal. lia.
Qed.

Lemma in_iloc_but_last_imul (c : float64) (t : table) (ir' : Z * Elem.row) :
  In ir' (iloc_but_last_imul c t) ->
  exists ir, In ir t /\ fst ir' = fst ir /\
    (Elem.p_mw (snd ir') = (Elem.p_mw (snd ir) * c)%f64 \/ ir' = ir).
Proof.
  unfold iloc_but_last_imul. intros H. apply in_app_or in H.
  destruct H as [H|H].
  - apply in_map_iff in H. destruct H as (ir & <- & H).
    exists ir. split; [|split; [reflexivity|left; reflexivity]].
    rewrite <- (firstn_skipn (length t - 1) t). apply in_or_app. now left.
  - exists ir'. split; [now apply in_skipn in H|auto].
Qed.

Lemma in_expected_load (ld : table) (ir' : Z * Elem.row) :
  In ir' (expected_load ld) ->
  exists ir b, In ir ld /\ ir' = on_row (Elem.set_controllable b) ir.
Proof.
  unfold expected_load. rewrite zip_upd_zip_with. intros H.
  apply in_zip_with in H. destruct H as (ir & b & Hir & _ & ->).
  now exists ir, b.
Qed.

Lemma index_expected_load (ld : table) :
  length ld = 18%nat -> index (expected_load ld) = index ld.
Proof. intros H. explode ld H. reflexivity. Qed.

(** ** Index labels *)

Lemma NoDup_index_filter (f : Z * Elem.row -> bool) (t : table) :
  NoDup (index t) -> NoDup (index (filter f t)).
Proof.
  unfold index. induction t as [|ir t IH]; simpl; intros H; [constructor|].
  inversion H as [|? ? Hn Hd]; subst.
  destruct (f ir); simpl; [|auto].
  constructor; [|auto]. intros Hin. apply Hn.
  apply in_map_iff in Hin. destruct Hin as (jr & E & Hj).
  apply filter_In in Hj. apply in_map_iff. exists jr. tauto.
Qed.

(** A label of a table without repeated labels names exactly one row. *)
Lemma one_row (t : table) (i : Z) :
  NoDup (index t) -> In i (index t) ->
  length (filter (fun jr => Z.eqb (fst jr) i) t) = 1%nat.
Proof.
  unfold index. induction t as [|jr t IH]; simpl; intros Hd Hi; [tauto|].
  inversion Hd as [|? ? Hn Hd']; subst.
  destruct (Z.eqb_spec (fst jr) i) as [E|E].
  - simpl. f_equal. subst i.
    assert (F : forall l : table, ~ In (fst jr) (map fst l) ->
                filter (fun kr => Z.eqb (fst kr) (fst jr)) l = []).
    { induction l as [|kr l IHl]; simpl; intros Hl; [reflexivity|].
      destruct (Z.eqb_spec (fst kr) (fst jr)); [tauto|]. apply IHl. tauto. }
    now rewrite F.
  - apply IH; [exact Hd'|]. destruct Hi; [contradiction|assumption].
Qed.

Section Rows.
Context {np : NumPy} {spec : NumPySpec np}.
Variable create_cigre_network_mv : string -> Net.
#[local] Abbreviation tmpl := (create_cigre_network_mv "pv_wind").
#[local] Abbreviation test_case4 := (test_case4 create_cigre_network_mv).

(** Every row of the returned table is the row of a controllable load or of
    a static generator, with draws of the seeded generator behind it. *)
Lemma flexibility_rows (s s' : rng_state) (net : Net) (x : Flex.row) :
  test_case4 s = OK (net, s') -> In x (flexibility net) ->
  (exists ir u d,
      In ir (load net) /\ Elem.is_controllable (snd ir) = true /\
      In u up_draws /\ In d down_draws /\
      x = load_fpu (load net) ir (u, d))
  \/ (exists ir f u d,
        In ir (sgen net) /\ In f fuzz_draws /\
        In u up_draws /\ In d down_draws /\
        x = sgen_fpu (sgen net) (ir, f) (u, d)).
Proof.
  intros H Hx. apply run_inv in H. destruct H as (_ & _ & -> & _).
  unfold expected_net in *. cbn [flexibility load sgen] in *.
  unfold expected_flexibility in Hx. apply in_app_or in Hx.
  destruct Hx as [Hx|Hx]; apply in_zip_with in Hx.
  - destruct Hx as (ir & [u d] & Hir & Hud & ->). left.
    apply filter_In in Hir. exists ir, u, d.
    pose proof (in_combine_l _ _ _ _ Hud). pose proof (in_combine_r _ _ _ _ Hud).
    tauto.
  - destruct Hx as ([ir f] & [u d] & Hir & Hud & ->). right.
    apply in_skipn in Hud. exists ir, f, u, d.
    pose proof (in_combine_l _ _ _ _ Hud). pose proof (in_combine_r _ _ _ _ Hud).
    pose proof (in_combine_l _ _ _ _ Hir). pose proof (in_combine_r _ _ _ _ Hir).
    tauto.
Qed.

Lemma draw_in_unit (n : nat) (k : Z) (u : float64) :
  In u (fst (np_random_random n (np_random_seed k))) -> in_unit u.
Proof. apply random_in_unit. Qed.
End Rows.

(** ** The sample instance meets the numpy contract *)

Lemma sample_draws_in_unit :
  forallb (fun x => SFleb (of_int 0) x && SFltb x (of_int 1))
    Sample.draws_table = true.
Proof. vm_compute. reflexivity. Qed.

Lemma sample_numpy_spec : NumPySpec Sample.numpy.
Proof.
  constructor.
  - intros n s. cbn. now rewrite length_map, length_seq.
  - intros n s x Hx. cbn in Hx. apply in_map_iff in Hx.
    destruct Hx as (i & <- & _). unfold Sample.draw.
    pose proof sample_draws_in_unit as H. rewrite forallb_forall in H.
    assert (Hin : In (nth ((s + i) mod 16) Sample.draws_table (of_int 0))
                    Sample.draws_table).
    { apply nth_In. change (length Sample.draws_table) with 16%nat.
      apply Nat.mod_upper_bound. discriminate. }
    apply H in Hin. apply andb_prop in Hin. exact Hin.
  - intros x _. cbn. unfold Sample.round3.
    eexists. split; [|reflexivity].
    pose proof (filter_length_le
                  (fun j => SFleb (of_int (2 * Z.of_nat j - 1) / of_int 2000)%f64 x)
                  (seq 1 1000)) as H.
    rewrite length_seq in H. lia.
Qed.

Lemma sample_run :
  @test_case4 Sample.numpy Sample.network 42%nat
  = OK (Sample.net, 26%nat).
Proof. vm_compute. reflexivity. Qed.

(** ** The key columns of the table *)


Lemma map_zip_with_l {A B C D} (h : C -> D) (f : A -> B -> C) (g : A -> D)
    (xs : list A) (ys : list B) :
  (length xs <= length ys)%nat -> (forall x y, h (f x y) = g x) ->
  map h (zip_with f xs ys) = map g xs.
Proof.
  intros L H. revert ys L.
  induction xs as [|x xs IH]; intros [|y ys] L; simpl in *; try lia; auto.
  rewrite H, IH by lia. reflexivity.
Qed.

Lemma map_combine_l {A B D} (g : A -> D) (xs : list A) (ys : list B) :
  (length xs <= length ys)%nat ->
  map (fun p => g (fst p)) (combine xs ys) = map g xs.
Proof.
  revert ys. induction xs as [|x xs IH]; intros [|y ys] L; simpl in *;
    try lia; auto.
  rewrite IH by lia. reflexivity.
Qed.

Lemma NoDup_map_inj {A B} (f : A -> B) (l : list A) :
  (forall a b, f a = f b -> a = b) -> NoDup l -> NoDup (map f l).
Proof.
  intros Hf. induction 1 as [|a l Hn Hd IH]; simpl; constructor; auto.
  intros Hin. apply in_map_iff in Hin. destruct Hin as (b & E & Hb).
  apply Hf in E. now subst.
Qed.

Section Claims.
Context {np : NumPy} {spec : NumPySpec np}.
Variable create_cigre_network_mv : string -> Net.
#[local] Abbreviation tmpl := (create_cigre_network_mv "pv_wind").
#[local] Abbreviation test_case4 := (test_case4 create_cigre_network_mv).
#[local] Abbreviation expected_net := (expected_net create_cigre_network_mv).

(** The [element] and [et] cells, row by row: the labels of the controllable
    loads under "load", then the labels of the generators under "sgen". *)
Lemma flexibility_keys (s s' : rng_state) (net : Net) :
  test_case4 s = OK (net, s') ->
  map (fun x => (Flex.element x, Flex.et x)) (flexibility net)
  = map (fun i => (Some i, Some "load")) (index (controllable_rows (load net)))
    ++ map (fun i => (Some i, Some "sgen")) (index (sgen net)).
Proof.
  intros H. apply run_inv in H. destruct H as (H18 & H9 & -> & _).
  unfold expected_net. cbn [flexibility load sgen].
  unfold expected_flexibility.
  pose proof (controllable_rows_expected _ H18) as H4.
  pose proof (iloc_but_last_imul_length (of_int 30) (sgen tmpl)) as Hsg.
  rewrite H9 in Hsg.
  assert (Hc : length (combine up_draws down_draws) = 13%nat).
  { unfold up_draws, down_draws. now rewrite length_combine, !random_length. }
  assert (Hf : length fuzz_draws = 9%nat)
    by (unfold fuzz_draws; apply random_length).
  rewrite map_app. unfold index. rewrite !map_map. f_equal.
  - apply map_zip_with_l; [rewrite H4, Hc; lia|reflexivity].
  - rewrite (map_zip_with_l _ _
               (fun irf => (Some (fst (fst irf)), Some "sgen"))).
    + apply (map_combine_l (fun ir => (Some (fst ir), Some "sgen"))).
      rewrite Hsg, Hf. lia.
    + rewrite length_combine, length_skipn, Hsg, Hf, H4, Hc. cbn. lia.
    + reflexivity.
Qed.

(** ** The claims *)

(** C1. The flexibility table that [test_case4] returns has exactly 13 rows:
    one for each of the 4 loads whose [controllable] flag is true and one for
    each of the 9 rows of the static-generator table.  The script returns on
    every template with 18 loads and 9 static generators, and on no other. *)
Theorem flexibility_has_13_rows (s : rng_state) :
  (length (load tmpl) = 18%nat -> length (sgen tmpl) = 9%nat ->
   exists net s', test_case4 s = OK (net, s'))
  /\ forall net s', test_case4 s = OK (net, s') ->
       length (load tmpl) = 18%nat /\
       length (controllable_rows (load net)) = 4%nat /\
       length (sgen tmpl) = 9%nat /\ length (sgen net) = 9%nat /\
       length (flexibility net)
       = (length (controllable_rows (load net)) + length (sgen net))%nat /\
       length (flexibility net) = 13%nat.
Proof.
  split.
  - intros H18 H9. eexists. eexists.
    apply (run_ok create_cigre_network_mv s H18 H9).
  - intros net s' H.
    pose proof (flexibility_keys s s' net H) as K.
    apply (f_equal (@length _)) in K.
    rewrite length_map, length_app, !length_map in K. unfold index in K.
    rewrite !length_map in K.
    apply run_inv in H. destruct H as (H18 & H9 & -> & _).
    unfold expected_net in *. cbn [flexibility load sgen] in *.
    pose proof (controllable_rows_expected _ H18) as H4.
    pose proof (iloc_but_last_imul_length (of_int 30) (sgen tmpl)) as Hsg.
    rewrite H9 in Hsg. rewrite H4, Hsg in K. rewrite H4, Hsg.
    repeat split; auto.
Qed.

(** C2. Two runs of [test_case4] give the same outcome, and so the same
    flexibility table cell by cell, whatever state numpy's global generator
    is in when each run starts: every draw is preceded by a seeding. *)
Theorem test_case4_deterministic (s0 s1 : rng_state) :
  test_case4 s0 = test_case4 s1.
Proof. apply test_case4_oblivious. Qed.

(** C3. In every row of the returned table, [up_cost] is [90 + 20 * r] and
    [down_cost] is [100 - 20 * r'] for draws from the unit interval rounded
    to 3 decimals, and [up_cost] lies in [90, 110], [down_cost] in
    [80, 100]. *)
Theorem cost_bounds (s s' : rng_state) (net : Net) (x : Flex.row) :
  test_case4 s = OK (net, s') -> In x (flexibility net) ->
  exists u d r r',
    in_unit u /\ in_unit d /\ r = np_round 3 u /\ r' = np_round 3 d /\
    Flex.up_cost x = Some (of_int 90 + of_int 20 * r)%f64 /\
    Flex.down_cost x = Some (of_int 100 - of_int 20 * r')%f64 /\
    (of_int 90 <= of_int 90 + of_int 20 * r <= of_int 110)%f64 /\
    (of_int 80 <= of_int 100 - of_int 20 * r' <= of_int 100)%f64.
Proof.
  intros H Hx.
  assert (B : forall u, in_unit u -> costs_in_bounds (np_round 3 u) = true)
    by (intros u Hu; apply costs_in_bounds_grid, round3_on_grid, Hu).
  assert (K : exists u d, In u up_draws /\ In d down_draws /\
              Flex.up_cost x = Some (of_int 90 + of_int 20 * np_round 3 u)%f64 /\
              Flex.down_cost x
              = Some (of_int 100 - of_int 20 * np_round 3 d)%f64).
  { destruct (flexibility_rows _ s s' net x H Hx)
      as [(ir & u & d & _ & _ & Hu & Hd & ->)
         |(ir & f & u & d & _ & _ & Hu & Hd & ->)];
      exists u, d; auto. }
  destruct K as (u & d & Hu & Hd & Eu & Ed).
  apply draw_in_unit in Hu, Hd.
  exists u, d, (np_round 3 u), (np_round 3 d).
  pose proof (B u Hu) as Bu. pose proof (B d Hd) as Bd.
  unfold costs_in_bounds in Bu, Bd.
  apply andb_prop in Bu. destruct Bu as [Bu _].
  apply andb_prop in Bu. destruct Bu as [Bu _].
  apply andb_prop in Bu. destruct Bu as [Bu1 Bu2].
  apply andb_prop in Bd. destruct Bd as [Bd Bd4].
  apply andb_prop in Bd. destruct Bd as [_ Bd3].
  split; [exact Hu|]. split; [exact Hd|].
  split; [reflexivity|]. split; [reflexivity|].
  split; [exact Eu|]. split; [exact Ed|].
  split; split; assumption.
Qed.

(** C4. In every row of the returned table [up_quantity] and
    [down_quantity] are at least zero, the active powers of the template's
    loads and generators being so: a load row holds half the load's [p_mw]
    twice, a generator row 1.1 times the unit's [p_mw] and that [p_mw]. *)
Theorem quantities_nonneg (s s' : rng_state) (net : Net) (x : Flex.row) :
  test_case4 s = OK (net, s') ->
  Forall (fun ir => (of_int 0 <= Elem.p_mw (snd ir))%f64) (load tmpl) ->
  Forall (fun ir => (of_int 0 <= Elem.p_mw (snd ir))%f64) (sgen tmpl) ->
  In x (flexibility net) ->
  exists ir up down,
    Flex.up_quantity x = Some up /\ Flex.down_quantity x = Some down /\
    (of_int 0 <= up)%f64 /\ (of_int 0 <= down)%f64 /\
    ((In ir (load net) /\ Flex.et x = Some "load" /\
      up = (Elem.p_mw (snd ir) / of_int 2)%f64 /\
      down = (Elem.p_mw (snd ir) / of_int 2)%f64)
     \/ (In ir (sgen net) /\ Flex.et x = Some "sgen" /\
         up = (lit 1.1 * Elem.p_mw (snd ir))%f64 /\
         down = Elem.p_mw (snd ir))).
Proof.
  intros H Hl Hg Hx. rewrite Forall_forall in Hl, Hg.
  destruct (flexibility_rows _ s s' net x H Hx)
    as [(ir & u & d & Hir & _ & _ & _ & ->)
       |(ir & f & u & d & Hir & _ & _ & _ & ->)];
    apply run_inv in H; destruct H as (_ & _ & E & _);
    pose proof Hir as Hir'; rewrite E in Hir;
    unfold expected_net in Hir; cbn [load sgen] in Hir.
  - apply in_expected_load in Hir. destruct Hir as (ir0 & b & Hir0 & Eir).
    assert (P : (of_int 0 <= Elem.p_mw (snd ir))%f64)
      by (rewrite Eir; apply (Hl ir0 Hir0)).
    assert (Q : (of_int 0 <= Elem.p_mw (snd ir) / of_int 2)%f64)
      by (apply (div_nonneg_r 4503599627370496 (-51)), P).
    exists ir. do 2 eexists.
    split; [reflexivity|]. split; [reflexivity|].
    split; [exact Q|]. split; [exact Q|]. left. auto.
  - apply in_iloc_but_last_imul in Hir.
    destruct Hir as (ir0 & Hir0 & _ & Ep).
    assert (P : (of_int 0 <= Elem.p_mw (snd ir))%f64).
    { destruct Ep as [Ep|Ep]; rewrite Ep.
      - apply (mul_nonneg_r 8444249301319680 (-48)), Hg, Hir0.
      - apply Hg, Hir0. }
    exists ir. do 2 eexists.
    split; [reflexivity|]. split; [reflexivity|].
    split; [apply (mul_nonneg_l 4953959590107546 (-52)), P|].
    split; [exact P|]. right. auto.
Qed.

(** C5. In every row of the returned table whose [et] is "load",
    [p_setpoint] and [q_setpoint] are the [p_mw] and [q_mvar] of the load
    that [element] names, multiplied by -1; on binary64 values that
    product is the negation. *)
Theorem load_setpoints_negated (s s' : rng_state) (net : Net) (x : Flex.row) :
  test_case4 s = OK (net, s') -> In x (flexibility net) ->
  Flex.et x = Some "load" ->
  exists i r,
    Flex.element x = Some i /\ In (i, r) (load net) /\
    loc (load net) i = OK r /\
    Flex.p_setpoint x = Some (Elem.p_mw r * of_int (-1))%f64 /\
    Flex.q_setpoint x = Some (Elem.q_mvar r * of_int (-1))%f64 /\
    (valid_binary (Elem.p_mw r) = true ->
     Flex.p_setpoint x = Some (- Elem.p_mw r)%f64) /\
    (valid_binary (Elem.q_mvar r) = true ->
     Flex.q_setpoint x = Some (- Elem.q_mvar r)%f64).
Proof.
  intros H Hx Het.
  destruct (flexibility_rows _ s s' net x H Hx)
    as [(ir & u & d & Hir & _ & _ & _ & ->)
       |(ir & f & u & d & _ & _ & _ & _ & ->)]; [|discriminate Het].
  destruct (loc_in _ _ Hir) as (r & E & Hr).
  exists (fst ir), r.
  assert (P : Flex.p_setpoint (load_fpu (load net) ir (u, d))
              = Some (Elem.p_mw r * of_int (-1))%f64)
    by (unfold load_fpu, resolve; rewrite E; reflexivity).
  assert (Q : Flex.q_setpoint (load_fpu (load net) ir (u, d))
              = Some (Elem.q_mvar r * of_int (-1))%f64)
    by (unfold load_fpu, resolve; rewrite E; reflexivity).
  split; [reflexivity|]. split; [exact Hr|]. split; [exact E|].
  split; [exact P|]. split; [exact Q|].
  split; intros Hv; [rewrite P|rewrite Q]; now rewrite mul_neg1.
Qed.

(** C6, as the script has it.  In every row of the returned table the [et]
    cell holds "load" or "sgen", the names of the two device tables of the
    network object, and no other value. *)
Theorem et_load_or_sgen (s s' : rng_state) (net : Net) (x : Flex.row) :
  test_case4 s = OK (net, s') -> In x (flexibility net) ->
  Flex.et x = Some "load" \/ Flex.et x = Some "sgen".
Proof.
  intros H Hx.
  destruct (flexibility_rows _ s s' net x H Hx)
    as [(ir & u & d & _ & _ & _ & _ & ->)
       |(ir & f & u & d & _ & _ & _ & _ & ->)]; [left|right]; reflexivity.
Qed.

(** C7. The labels of the template's load table and of its generator table
    being without repetition, the pair ([element], [et]) of every row of the
    returned table names exactly one row of the device table that [et]
    names, and no two rows of the table carry the same pair. *)
Theorem element_resolves_uniquely (s s' : rng_state) (net : Net) :
  test_case4 s = OK (net, s') ->
  NoDup (index (load tmpl)) -> NoDup (index (sgen tmpl)) ->
  (forall x, In x (flexibility net) ->
     exists i name t,
       Flex.element x = Some i /\ Flex.et x = Some name /\
       getattr net (Some name) = OK t /\ In i (index t) /\
       length (filter (fun jr => Z.eqb (fst jr) i) t) = 1%nat)
  /\ NoDup (map (fun x => (Flex.element x, Flex.et x)) (flexibility net)).
Proof.
  intros H Dl Dg.
  assert (Dl' : NoDup (index (load net)) /\ NoDup (index (sgen net))).
  { pose proof H as H'. apply run_inv in H'. destruct H' as (H18 & _ & -> & _).
    unfold expected_net. cbn [load sgen].
    now rewrite index_expected_load, index_iloc_but_last_imul. }
  destruct Dl' as [Dl' Dg']. split.
  - intros x Hx.
    destruct (flexibility_rows _ s s' net x H Hx)
      as [(ir & u & d & Hir & _ & _ & _ & ->)
         |(ir & f & u & d & Hir & _ & _ & _ & ->)].
    + exists (fst ir), "load", (load net).
      assert (Hi : In (fst ir) (index (load net))) by now apply in_map.
      repeat split; auto. now apply one_row.
    + exists (fst ir), "sgen", (sgen net).
      assert (Hi : In (fst ir) (index (sgen net))) by now apply in_map.
      repeat split; auto. now apply one_row.
  - rewrite (flexibility_keys s s' net H). apply NoDup_app.
    + apply NoDup_map_inj; [intros a b E; now inversion E|].
      now apply NoDup_index_filter.
    + apply NoDup_map_inj; [intros a b E; now inversion E|exact Dg'].
    + intros a Ha Hb. apply in_map_iff in Ha, Hb.
      destruct Ha as (i & <- & _). destruct Hb as (j & E & _). discriminate E.
Qed.

(** C8. In the returned network every row of the static-generator table but
    the last has 30 times the [p_mw] of the template, the last row has the
    template's [p_mw], and nothing else in the table has changed. *)
Theorem sgen_scaled_but_last (s s' : rng_state) (net : Net)
    (k : nat) (i : Z) (r : Elem.row) :
  test_case4 s = OK (net, s') ->
  nth_error (sgen tmpl) k = Some (i, r) ->
  length (sgen net) = length (sgen tmpl) /\
  exists r',
    nth_error (sgen net) k = Some (i, r') /\
    Elem.bus r' = Elem.bus r /\ Elem.q_mvar r' = Elem.q_mvar r /\
    Elem.controllable r' = Elem.controllable r /\
    ((k < length (sgen tmpl) - 1)%nat ->
     Elem.p_mw r' = (Elem.p_mw r * of_int 30)%f64) /\
    (k = (length (sgen tmpl) - 1)%nat -> Elem.p_mw r' = Elem.p_mw r).
Proof.
  intros H Hk. apply run_inv in H. destruct H as (_ & _ & -> & _).
  unfold expected_net. cbn [sgen].
  split; [apply iloc_but_last_imul_length|].
  rewrite nth_error_iloc_but_last_imul, Hk.
  destruct (Nat.ltb_spec k (length (sgen tmpl) - 1)) as [L|L].
  - eexists. split; [reflexivity|]. cbn.
    repeat split; auto. intros ->. lia.
  - exists r. repeat split; auto. intros L'. lia.
Qed.

(** C9. In every static-generator row of the returned table [FPU_info] is a
    dictionary with the keys [q_min] and [q_max] and no other, where
    [q_max = 1 + f] for a draw from the unit interval rounded to 3 decimals,
    [q_min = - q_max], [q_max] lies in [1, 2] and [q_min] in [-2, -1]. *)
Theorem box_info (s s' : rng_state) (net : Net) (x : Flex.row) :
  test_case4 s = OK (net, s') -> In x (flexibility net) ->
  Flex.et x = Some "sgen" ->
  exists u f q_min q_max,
    in_unit u /\ f = np_round 3 u /\
    Flex.FPU_info x = Some [("q_min", q_min); ("q_max", q_max)] /\
    q_max = (of_int 1 + f)%f64 /\ q_min = (- q_max)%f64 /\
    (of_int 1 <= q_max <= of_int 2)%f64 /\
    (of_int (-2) <= q_min <= of_int (-1))%f64.
Proof.
  intros H Hx Het.
  destruct (flexibility_rows _ s s' net x H Hx)
    as [(ir & u & d & _ & _ & _ & _ & ->)
       |(ir & f & u & d & _ & Hf & _ & _ & ->)]; [discriminate Het|].
  apply draw_in_unit in Hf.
  pose proof (box_in_bounds_grid _ (round3_on_grid f Hf)) as B.
  unfold box_in_bounds in B.
  apply andb_prop in B. destruct B as [B B5].
  apply andb_prop in B. destruct B as [B B4].
  apply andb_prop in B. destruct B as [B B3].
  apply andb_prop in B. destruct B as [B1 B2].
  apply float64_eqb_eq in B1.
  exists f, (np_round 3 f), (- (of_int 1 + np_round 3 f))%f64,
    (of_int 1 + np_round 3 f)%f64.
  split; [exact Hf|]. split; [reflexivity|].
  split; [cbn [Flex.FPU_info sgen_fpu snd]; now rewrite B1|].
  split; [reflexivity|]. split; [reflexivity|].
  rewrite <- B1. split; split; assumption.
Qed.

(** C10. In every static-generator row of the returned table [up_quantity]
    is 1.1 times the unit's [p_mw] and [down_quantity] is that [p_mw], so
    that [up_quantity = 1.1 * down_quantity]; on a template of valid
    binary64 values [up_quantity] is above zero whenever [p_mw] is. *)
Theorem sgen_quantities (s s' : rng_state) (net : Net) (x : Flex.row) :
  test_case4 s = OK (net, s') ->
  Forall (fun ir => valid_binary (Elem.p_mw (snd ir)) = true) (sgen tmpl) ->
  In x (flexibility net) -> Flex.et x = Some "sgen" ->
  exists i r up down,
    Flex.element x = Some i /\ In (i, r) (sgen net) /\
    Flex.up_quantity x = Some up /\ Flex.down_quantity x = Some down /\
    up = (lit 1.1 * Elem.p_mw r)%f64 /\ down = Elem.p_mw r /\
    up = (lit 1.1 * down)%f64 /\
    ((of_int 0 < Elem.p_mw r)%f64 -> (of_int 0 < up)%f64).
Proof.
  intros H Hv Hx Het. rewrite Forall_forall in Hv.
  destruct (flexibility_rows _ s s' net x H Hx)
    as [(ir & u & d & _ & _ & _ & _ & ->)
       |(ir & f & u & d & Hir & _ & _ & _ & ->)]; [discriminate Het|].
  exists (fst ir), (snd ir). do 2 eexists.
  split; [reflexivity|]. split; [now destruct ir|].
  split; [reflexivity|]. split; [reflexivity|].
  split; [reflexivity|]. split; [reflexivity|]. split; [reflexivity|].
  apply mul_1_1_pos. cbn [fst snd].
  apply run_inv in H. destruct H as (_ & _ & E & _).
  rewrite E in Hir. unfold expected_net in Hir. cbn [sgen] in Hir.
  apply in_iloc_but_last_imul in Hir. destruct Hir as (ir0 & Hir0 & _ & Ep).
  destruct Ep as [Ep|Ep]; rewrite Ep.
  - apply mul_exp_ok.
  - apply valid_exp_ok, Hv, Hir0.
Qed.
End Claims.

(** ** Witnesses on the sample *)



Lemma sample_load_fpu_in : In sample_load_fpu (flexibility Sample.net).
Proof. apply nth_In. vm_compute. lia. Qed.

Lemma sample_sgen_fpu_in : In sample_sgen_fpu (flexibility Sample.net).
Proof. apply nth_In. vm_compute. lia. Qed.

Lemma sample_p_mw_nonneg (t : table) :
  forallb (fun ir => SFleb (of_int 0) (Elem.p_mw (snd ir))) t = true ->
  Forall (fun ir => (of_int 0 <= Elem.p_mw (snd ir))%f64) t.
Proof. intros H. apply Forall_forall. now apply forallb_forall. Qed.

Lemma sample_p_mw_valid (t : table) :
  forallb (fun ir => valid_binary (Elem.p_mw (snd ir))) t = true ->
  Forall (fun ir => valid_binary (Elem.p_mw (snd ir)) = true) t.
Proof. intros H. apply Forall_forall. now apply forallb_forall. Qed.

Lemma sample_index_NoDup (rs : list Elem.row) (i : Z) :
  NoDup (index (Sample.enumerate_from i rs)).
Proof.
  assert (B : forall rs i j, In j (index (Sample.enumerate_from i rs)) ->
              (i <= j)%Z).
  { clear. induction rs as [|r rs IH]; simpl; intros i j H; [tauto|].
    destruct H as [<-|H]; [lia|]. apply IH in H. lia. }
  revert i. induction rs as [|r rs IH]; intros i; simpl; constructor; auto.
  intros H. apply B in H. lia.
Qed.

Lemma flexibility_has_13_rows_witness :
  NumPySpec Sample.numpy /\
  exists net s',
    @test_case4 Sample.numpy Sample.network 42%nat = OK (net, s') /\
    length (flexibility net) = 13%nat.
Proof.
  split; [exact sample_numpy_spec|].
  destruct (@flexibility_has_13_rows Sample.numpy sample_numpy_spec
              Sample.network 42%nat) as [T P].
  destruct (T eq_refl eq_refl) as (net & s' & E).
  exists net, s'. split; [exact E|]. apply (P net s' E).
Defined.

Lemma cost_bounds_witness :
  NumPySpec Sample.numpy /\
  @test_case4 Sample.numpy Sample.network 42%nat = OK (Sample.net, 26%nat) /\
  In sample_load_fpu (flexibility Sample.net) /\
  exists u d r r',
    in_unit u /\ in_unit d /\
    r = @np_round Sample.numpy 3 u /\ r' = @np_round Sample.numpy 3 d /\
    Flex.up_cost sample_load_fpu = Some (of_int 90 + of_int 20 * r)%f64 /\
    Flex.down_cost sample_load_fpu = Some (of_int 100 - of_int 20 * r')%f64 /\
    (of_int 90 <= of_int 90 + of_int 20 * r <= of_int 110)%f64 /\
    (of_int 80 <= of_int 100 - of_int 20 * r' <= of_int 100)%f64.
Proof.
  split; [exact sample_numpy_spec|]. split; [exact sample_run|].
  split; [exact sample_load_fpu_in|].
  exact (@cost_bounds Sample.numpy sample_numpy_spec Sample.network
           42%nat 26%nat Sample.net sample_load_fpu sample_run
           sample_load_fpu_in).
Defined.

Lemma quantities_nonneg_witness :
  NumPySpec Sample.numpy /\
  @test_case4 Sample.numpy Sample.network 42%nat = OK (Sample.net, 26%nat) /\
  Forall (fun ir => (of_int 0 <= Elem.p_mw (snd ir))%f64)
    (load (Sample.network "pv_wind")) /\
  Forall (fun ir => (of_int 0 <= Elem.p_mw (snd ir))%f64)
    (sgen (Sample.network "pv_wind")) /\
  In sample_sgen_fpu (flexibility Sample.net) /\
  exists ir up down,
    Flex.up_quantity sample_sgen_fpu = Some up /\
    Flex.down_quantity sample_sgen_fpu = Some down /\
    (of_int 0 <= up)%f64 /\ (of_int 0 <= down)%f64 /\
    ((In ir (load Sample.net) /\ Flex.et sample_sgen_fpu = Some "load" /\
      up = (Elem.p_mw (snd ir) / of_int 2)%f64 /\
      down = (Elem.p_mw (snd ir) / of_int 2)%f64)
     \/ (In ir (sgen Sample.net) /\ Flex.et sample_sgen_fpu = Some "sgen" /\
         up = (lit 1.1 * Elem.p_mw (snd ir))%f64 /\
         down = Elem.p_mw (snd ir))).
Proof.
  assert (Hl : Forall (fun ir => (of_int 0 <= Elem.p_mw (snd ir))%f64)
                 (load (Sample.network "pv_wind")))
    by (apply sample_p_mw_nonneg; vm_compute; reflexivity).
  assert (Hg : Forall (fun ir => (of_int 0 <= Elem.p_mw (snd ir))%f64)
                 (sgen (Sample.network "pv_wind")))
    by (apply sample_p_mw_nonneg; vm_compute; reflexivity).
  split; [exact sample_numpy_spec|]. split; [exact sample_run|].
  split; [exact Hl|]. split; [exact Hg|].
  split; [exact sample_sgen_fpu_in|].
  exact (@quantities_nonneg Sample.numpy sample_numpy_spec Sample.network
           42%nat 26%nat Sample.net sample_sgen_fpu sample_run Hl Hg
           sample_sgen_fpu_in).
Defined.

Lemma load_setpoints_negated_witness :
  NumPySpec Sample.numpy /\
  @test_case4 Sample.numpy Sample.network 42%nat = OK (Sample.net, 26%nat) /\
  In sample_load_fpu (flexibility Sample.net) /\
  Flex.et sample_load_fpu = Some "load" /\
  exists i r,
    Flex.element sample_load_fpu = Some i /\ In (i, r) (load Sample.net) /\
    loc (load Sample.net) i = OK r /\
    Flex.p_setpoint sample_load_fpu = Some (Elem.p_mw r * of_int (-1))%f64 /\
    Flex.q_setpoint sample_load_fpu = Some (Elem.q_mvar r * of_int (-1))%f64 /\
    (valid_binary (Elem.p_mw r) = true ->
     Flex.p_setpoint sample_load_fpu = Some (- Elem.p_mw r)%f64) /\
    (valid_binary (Elem.q_mvar r) = true ->
     Flex.q_setpoint sample_load_fpu = Some (- Elem.q_mvar r)%f64).
Proof.
  split; [exact sample_numpy_spec|]. split; [exact sample_run|].
  split; [exact sample_load_fpu_in|]. split; [reflexivity|].
  exact (@load_setpoints_negated Sample.numpy sample_numpy_spec
           Sample.network 42%nat 26%nat Sample.net sample_load_fpu
           sample_run sample_load_fpu_in eq_refl).
Defined.

Lemma et_load_or_sgen_witness :
  NumPySpec Sample.numpy /\
  @test_case4 Sample.numpy Sample.network 42%nat = OK (Sample.net, 26%nat) /\
  In sample_sgen_fpu (flexibility Sample.net) /\
  (Flex.et sample_sgen_fpu = Some "load" \/
   Flex.et sample_sgen_fpu = Some "sgen").
Proof.
  split; [exact sample_numpy_spec|]. split; [exact sample_run|].
  split; [exact sample_sgen_fpu_in|].
  exact (@et_load_or_sgen Sample.numpy sample_numpy_spec Sample.network
           42%nat 26%nat Sample.net sample_sgen_fpu sample_run
           sample_sgen_fpu_in).
Defined.

(** C6 as the specification words it fails on the sample: the fifth row of
    the table returned there holds "sgen", neither "load" nor "generator". *)
Lemma et_generator_counterexample :
  exists net s',
    @test_case4 Sample.numpy Sample.network 42%nat = OK (net, s') /\
    ~ (forall x, In x (flexibility net) ->
         Flex.et x = Some "load" \/ Flex.et x = Some "generator").
Proof.
  exists Sample.net, 26%nat. split; [exact sample_run|].
  intros H. destruct (H sample_sgen_fpu sample_sgen_fpu_in) as [E|E];
    discriminate E.
Qed.

Lemma element_resolves_uniquely_witness :
  NumPySpec Sample.numpy /\
  @test_case4 Sample.numpy Sample.network 42%nat = OK (Sample.net, 26%nat) /\
  NoDup (index (load (Sample.network "pv_wind"))) /\
  NoDup (index (sgen (Sample.network "pv_wind"))) /\
  (forall x, In x (flexibility Sample.net) ->
     exists i name t,
       Flex.element x = Some i /\ Flex.et x = Some name /\
       getattr Sample.net (Some name) = OK t /\ In i (index t) /\
       length (filter (fun jr => Z.eqb (fst jr) i) t) = 1%nat)
  /\ NoDup (map (fun x => (Flex.element x, Flex.et x))
              (flexibility Sample.net)).
Proof.
  assert (Dl : NoDup (index (load (Sample.network "pv_wind"))))
    by apply sample_index_NoDup.
  assert (Dg : NoDup (index (sgen (Sample.network "pv_wind"))))
    by apply sample_index_NoDup.
  split; [exact sample_numpy_spec|]. split; [exact sample_run|].
  split; [exact Dl|]. split; [exact Dg|].
  exact (@element_resolves_uniquely Sample.numpy sample_numpy_spec
           Sample.network 42%nat 26%nat Sample.net sample_run Dl Dg).
Defined.

Lemma sgen_scaled_but_last_witness :
  NumPySpec Sample.numpy /\
  @test_case4 Sample.numpy Sample.network 42%nat = OK (Sample.net, 26%nat) /\
  nth_error (sgen (Sample.network "pv_wind")) 2
  = Some (2%Z, Sample.elem 5 0.03 0) /\
  length (sgen Sample.net) = length (sgen (Sample.network "pv_wind")) /\
  exists r',
    nth_error (sgen Sample.net) 2 = Some (2%Z, r') /\
    Elem.bus r' = Elem.bus (Sample.elem 5 0.03 0) /\
    Elem.q_mvar r' = Elem.q_mvar (Sample.elem 5 0.03 0) /\
    Elem.controllable r' = Elem.controllable (Sample.elem 5 0.03 0) /\
    ((2 < length (sgen (Sample.network "pv_wind")) - 1)%nat ->
     Elem.p_mw r' = (Elem.p_mw (Sample.elem 5 0.03 0) * of_int 30)%f64) /\
    (2%nat = (length (sgen (Sample.network "pv_wind")) - 1)%nat ->
     Elem.p_mw r' = Elem.p_mw (Sample.elem 5 0.03 0)).
Proof.
  split; [exact sample_numpy_spec|]. split; [exact sample_run|].
  split; [reflexivity|].
  exact (@sgen_scaled_but_last Sample.numpy sample_numpy_spec Sample.network
           42%nat 26%nat Sample.net 2%nat 2%Z (Sample.elem 5 0.03 0)
           sample_run eq_refl).
Defined.

Lemma box_info_witness :
  NumPySpec Sample.numpy /\
  @test_case4 Sample.numpy Sample.network 42%nat = OK (Sample.net, 26%nat) /\
  In sample_sgen_fpu (flexibility Sample.net) /\
  Flex.et sample_sgen_fpu = Some "sgen" /\
  exists u f q_min q_max,
    in_unit u /\ f = @np_round Sample.numpy 3 u /\
    Flex.FPU_info sample_sgen_fpu
    = Some [("q_min", q_min); ("q_max", q_max)] /\
    q_max = (of_int 1 + f)%f64 /\ q_min = (- q_max)%f64 /\
    (of_int 1 <= q_max <= of_int 2)%f64 /\
    (of_int (-2) <= q_min <= of_int (-1))%f64.
Proof.
  split; [exact sample_numpy_spec|]. split; [exact sample_run|].
  split; [exact sample_sgen_fpu_in|]. split; [reflexivity|].
  exact (@box_info Sample.numpy sample_numpy_spec Sample.network
           42%nat 26%nat Sample.net sample_sgen_fpu sample_run
           sample_sgen_fpu_in eq_refl).
Defined.

Lemma sgen_quantities_witness :
  NumPySpec Sample.numpy /\
  @test_case4 Sample.numpy Sample.network 42%nat = OK (Sample.net, 26%nat) /\
  Forall (fun ir => valid_binary (Elem.p_mw (snd ir)) = true)
    (sgen (Sample.network "pv_wind")) /\
  In sample_sgen_fpu (flexibility Sample.net) /\
  Flex.et sample_sgen_fpu = Some "sgen" /\
  exists i r up down,
    Flex.element sample_sgen_fpu = Some i /\ In (i, r) (sgen Sample.net) /\
    Flex.up_quantity sample_sgen_fpu = Some up /\
    Flex.down_quantity sample_sgen_fpu = Some down /\
    up = (lit 1.1 * Elem.p_mw r)%f64 /\ down = Elem.p_mw r /\
    up = (lit 1.1 * down)%f64 /\
    ((of_int 0 < Elem.p_mw r)%f64 -> (of_int 0 < up)%f64).
Proof.
  assert (Hv : Forall (fun ir => valid_binary (Elem.p_mw (snd ir)) = true)
                 (sgen (Sample.network "pv_wind")))
    by (apply sample_p_mw_valid; vm_compute; reflexivity).
  split; [exact sample_numpy_spec|]. split; [exact sample_run|].
  split; [exact Hv|]. split; [exact sample_sgen_fpu_in|].
  split; [reflexivity|].
  exact (@sgen_quantities Sample.numpy sample_numpy_spec Sample.network
           42%nat 26%nat Sample.net sample_sgen_fpu sample_run Hv
           sample_sgen_fpu_in eq_refl).
Defined.

(** * Further properties of the script *)

(** ** Lists and tables, by position *)


Lemma nth_error_zip_with {A B C} (f : A -> B -> C) xs ys k :
  nth_error (zip_with f xs ys) k
  = match nth_error xs k, nth_error ys k with
    | Some a, Some b => Some (f a b)
    | _, _ => None
    end.
Proof.
  revert ys k; induction xs as [|x xs IH]; intros [|y ys] [|k]; simpl; auto.
  destruct (nth_error xs k); reflexivity.
Qed.

Lemma nth_error_combine_both {A B} (xs : list A) (ys : list B) k :
  nth_error (combine xs ys) k
  = match nth_error xs k, nth_error ys k with
    | Some a, Some b => Some (a, b)
    | _, _ => None
    end.
Proof.
  revert ys k; induction xs as [|x xs IH]; intros [|y ys] [|k]; simpl; auto.
  destruct (nth_error xs k); reflexivity.
Qed.

Lemma nth_error_in_range {A} (l : list A) k :
  (k < length l)%nat -> exists a, nth_error l k = Some a.
Proof.
  intros H. destruct (nth_error l k) as [a|] eqn:E; [now exists a|].
  apply nth_error_None in E. lia.
Qed.

Lemma zip_with_firstn {A B C} (f : A -> B -> C) xs ys :
  zip_with f xs ys = zip_with f xs (firstn (length xs) ys).
Proof.
  revert ys; induction xs as [|x xs IH]; intros [|y ys]; simpl; auto.
  f_equal. apply IH.
Qed.

Lemma map_zip_with_r {A B C D} (h : C -> D) (f : A -> B -> C) (g : B -> D)
    (xs : list A) (ys : list B) :
  (length ys <= length xs)%nat -> (forall x y, h (f x y) = g y) ->
  map h (zip_with f xs ys) = map g ys.
Proof.
  intros L H. revert ys L.
  induction xs as [|x xs IH]; intros [|y ys] L; simpl in *; try lia; auto.
  rewrite H, IH by lia. reflexivity.
Qed.

Lemma map_combine_r {A B D} (g : B -> D) (xs : list A) (ys : list B) :
  (length ys <= length xs)%nat ->
  map (fun p => g (snd p)) (combine xs ys) = map g ys.
Proof.
  revert ys. induction xs as [|x xs IH]; intros [|y ys] L; simpl in *;
    try lia; auto.
  rewrite IH by lia. reflexivity.
Qed.

Lemma loc_ok_in (t : table) (i : Z) (r : Elem.row) :
  loc t i = OK r -> In (i, r) t.
Proof.
  unfold loc.
  destruct (find (fun ir => Z.eqb (fst ir) i) t) as [jr|] eqn:E;
    [|discriminate].
  intros H. inversion H; subst. apply find_some in E. destruct E as [Hin E].
  apply Z.eqb_eq in E. subst i. now destruct jr.
Qed.

(** In a table without repeated labels a label carries one row. *)
Lemma NoDup_index_row (t : table) (i : Z) (r r' : Elem.row) :
  NoDup (index t) -> In (i, r) t -> In (i, r') t -> r = r'.
Proof.
  unfold index. induction t as [|jq t IH]; simpl; intros Hd H1 H2; [tauto|].
  inversion Hd as [|? ? Hn Hd']; subst.
  destruct H1 as [H1|H1], H2 as [H2|H2].
  - congruence.
  - subst jq. exfalso. apply Hn. apply in_map_iff. now exists (i, r').
  - subst jq. exfalso. apply Hn. apply in_map_iff. now exists (i, r).
  - now apply IH.
Qed.

(** The flags of line 22, by position. *)
Lemma nth_error_expected_load (ld : table) (k : nat) (i : Z) (r : Elem.row) :
  length ld = 18%nat -> nth_error ld k = Some (i, r) ->
  nth_error (expected_load ld) k
  = Some (i, Elem.set_controllable
               (existsb (Nat.eqb k) [0; 8; 16; 17]%nat) r).
Proof.
  intros H Hk. explode ld H.
  do 18 (destruct k as [|k]; [inversion Hk; reflexivity|]).
  destruct k; discriminate Hk.
Qed.

(** The loads that line 22 flags, in the order of the table. *)
Lemma nth_error_controllable_rows (ld : table) (j k : nat) (i : Z)
    (r : Elem.row) :
  length ld = 18%nat -> nth_error [0; 8; 16; 17]%nat j = Some k ->
  nth_error ld k = Some (i, r) ->
  nth_error (controllable_rows (expected_load ld)) j
  = Some (i, Elem.set_controllable true r).
Proof.
  intros H Hj Hk. explode ld H.
  do 4 (destruct j as [|j];
        [inversion Hj; subst k; inversion Hk; reflexivity|]).
  destruct j; discriminate Hj.
Qed.

(** ** Templates of another shape *)

Section Failures.
Context {np : NumPy}.
Variable create_cigre_network_mv : string -> Net.
#[local] Abbreviation tmpl := (create_cigre_network_mv "pv_wind").
#[local] Abbreviation test_case4 := (test_case4 create_cigre_network_mv).




End Failures.

(** ** The returned network, table by table *)

Section Further.
Context {np : NumPy} {spec : NumPySpec np}.
Variable create_cigre_network_mv : string -> Net.
#[local] Abbreviation tmpl := (create_cigre_network_mv "pv_wind").
#[local] Abbreviation test_case4 := (test_case4 create_cigre_network_mv).
#[local] Abbreviation expected_net := (expected_net create_cigre_network_mv).

(** X3. In the returned network every switch is closed, every bus has the
    voltage limits 1.05 and 0.95, every line has a maximal loading of 100
    and a capacitance of 0, and the three tables have the rows of the
    template (lines 14-18). *)
Theorem template_columns_set (s s' : rng_state) (net : Net) :
  test_case4 s = OK (net, s') ->
  length (switch net) = length (switch tmpl) /\
  Forall (fun r => closed r = true) (switch net) /\
  length (bus net) = length (bus tmpl) /\
  Forall (fun r => max_vm_pu r = Some (lit 1.05) /\
                   min_vm_pu r = Some (lit 0.95)) (bus net) /\
  length (line net) = length (line tmpl) /\
  Forall (fun r => max_loading_percent r = Some (Int 100) /\
                   c_nf_per_km r = Int 0) (line net).
Proof.
  intros H. apply run_inv in H. destruct H as (_ & _ & -> & _).
  unfold expected_net. cbn [switch bus line]. rewrite !length_map.
  split; [reflexivity|]. split.
  { apply Forall_forall. intros r Hr. apply in_map_iff in Hr.
    destruct Hr as (r0 & <- & _). reflexivity. }
  split; [reflexivity|]. split.
  { apply Forall_forall. intros r Hr. apply in_map_iff in Hr.
    destruct Hr as (r0 & <- & _). split; reflexivity. }
  split; [reflexivity|].
  apply Forall_forall. intros r Hr. apply in_map_iff in Hr.
  destruct Hr as (r0 & <- & _). split; reflexivity.
Qed.

(** X4. The returned load table has the rows of the template in their
    order, with label, bus, [p_mw] and [q_mvar] unchanged; the
    [controllable] flag is set in every row, true at the positions 0, 8, 16
    and 17 and false at the others (line 22). *)
Theorem load_flags (s s' : rng_state) (net : Net)
    (k : nat) (i : Z) (r : Elem.row) :
  test_case4 s = OK (net, s') ->
  nth_error (load tmpl) k = Some (i, r) ->
  length (load net) = length (load tmpl) /\
  exists r',
    nth_error (load net) k = Some (i, r') /\
    Elem.bus r' = Elem.bus r /\ Elem.p_mw r' = Elem.p_mw r /\
    Elem.q_mvar r' = Elem.q_mvar r /\
    Elem.controllable r'
    = Some (existsb (Nat.eqb k) [0; 8; 16; 17]%nat).
Proof.
  intros H Hk. apply run_inv in H. destruct H as (H18 & _ & -> & _).
  unfold expected_net. cbn [load]. split.
  - pose proof (f_equal (@length _) (index_expected_load _ H18)) as L.
    unfold index in L. now rewrite !length_map in L.
  - rewrite (nth_error_expected_load _ k i r H18 Hk).
    eexists. split; [reflexivity|]. cbn. auto.
Qed.

(** X5. The first four rows of the returned table are those of the loads at
    the positions 0, 8, 16 and 17 of the template, in this order: row [j]
    holds the label of its load, "load" as [et] and as [FPU_type], half the
    load's [p_mw] as both quantities, and the power factor
    [cos (arctan (q_mvar / p_mw))] under the one key [pf] (lines 47-60). *)
Theorem load_rows_by_position (s s' : rng_state) (net : Net)
    (j k : nat) (i : Z) (r : Elem.row) :
  test_case4 s = OK (net, s') ->
  nth_error [0; 8; 16; 17]%nat j = Some k ->
  nth_error (load tmpl) k = Some (i, r) ->
  exists x,
    nth_error (flexibility net) j = Some x /\
    Flex.element x = Some i /\ Flex.et x = Some "load" /\
    Flex.up_quantity x = Some (Elem.p_mw r / of_int 2)%f64 /\
    Flex.down_quantity x = Some (Elem.p_mw r / of_int 2)%f64 /\
    Flex.FPU_type x = Some "load" /\
    Flex.FPU_info x
    = Some [("pf", np_cos (np_arctan (Elem.q_mvar r / Elem.p_mw r)%f64))].
Proof.
  intros H Hj Hk. apply run_inv in H. destruct H as (H18 & _ & -> & _).
  unfold expected_net. cbn [flexibility]. unfold expected_flexibility.
  pose proof (controllable_rows_expected _ H18) as H4.
  assert (Hc : length (combine up_draws down_draws) = 13%nat).
  { unfold up_draws, down_draws. now rewrite length_combine, !random_length. }
  assert (Lj : (j < 4)%nat).
  { apply (nth_error_Some [0; 8; 16; 17]%nat j). now rewrite Hj. }
  destruct (nth_error_in_range (combine up_draws down_draws) j) as [ud Eud];
    [rewrite Hc; lia|].
  rewrite nth_error_app1 by (rewrite zip_with_length, H4, Hc; cbn; lia).
  rewrite nth_error_zip_with,
    (nth_error_controllable_rows _ j k i r H18 Hj Hk), Eud.
  eexists. split; [reflexivity|]. cbn. repeat split; reflexivity.
Qed.

(** X6. The last nine rows of the returned table are those of the static
    generators, in the order of their table: row [4 + k] holds the label of
    the unit at position [k] and "sgen"; its [down_quantity] is the unit's
    [p_mw] after the scaling of line 19, that is 30 times the template's for
    every unit but the last, and its [up_quantity] is 1.1 times that
    (lines 19 and 63-66). *)
Theorem sgen_rows_by_position (s s' : rng_state) (net : Net)
    (k : nat) (i : Z) (r : Elem.row) :
  test_case4 s = OK (net, s') ->
  nth_error (sgen tmpl) k = Some (i, r) ->
  let p := if Nat.ltb k 8 then (Elem.p_mw r * of_int 30)%f64
           else Elem.p_mw r in
  exists x,
    nth_error (flexibility net) (4 + k) = Some x /\
    Flex.element x = Some i /\ Flex.et x = Some "sgen" /\
    Flex.down_quantity x = Some p /\
    Flex.up_quantity x = Some (lit 1.1 * p)%f64.
Proof.
  intros H Hk p. apply run_inv in H. destruct H as (H18 & H9 & -> & _).
  unfold expected_net. cbn [flexibility]. unfold expected_flexibility.
  pose proof (controllable_rows_expected _ H18) as H4.
  assert (Hc : length (combine up_draws down_draws) = 13%nat).
  { unfold up_draws, down_draws. now rewrite length_combine, !random_length. }
  assert (Hf : length fuzz_draws = 9%nat)
    by (unfold fuzz_draws; apply random_length).
  assert (Lk : (k < 9)%nat).
  { rewrite <- H9. apply nth_error_Some. now rewrite Hk. }
  destruct (nth_error_in_range (combine up_draws down_draws) (4 + k))
    as [ud Eud]; [rewrite Hc; lia|].
  destruct (nth_error_in_range fuzz_draws k) as [f Ef]; [rewrite Hf; lia|].
  rewrite nth_error_app2 by (rewrite zip_with_length, H4, Hc; cbn; lia).
  rewrite zip_with_length, H4, Hc.
  replace (4 + k - Nat.min 4 13)%nat with k by (cbn; lia).
  rewrite nth_error_zip_with, nth_error_combine_both,
    nth_error_iloc_but_last_imul, Hk, H9, Ef, nth_error_skipn, Eud.
  change (9 - 1)%nat with 8%nat. unfold p.
  destruct (Nat.ltb k 8); eexists; (split; [reflexivity|]); cbn;
    repeat split; reflexivity.
Qed.

(** X7. The [FPU_type] of a row of the returned table is "load" where [et]
    is "load" and "Box" where [et] is "sgen"; no row has the type "PV",
    [number_of_pvs] being 0 (lines 56 and 67-72). *)
Theorem FPU_type_load_or_Box (s s' : rng_state) (net : Net) (x : Flex.row) :
  test_case4 s = OK (net, s') -> In x (flexibility net) ->
  ((Flex.et x = Some "load" /\ Flex.FPU_type x = Some "load") \/
   (Flex.et x = Some "sgen" /\ Flex.FPU_type x = Some "Box")) /\
  Flex.FPU_type x <> Some "PV".
Proof.
  intros H Hx.
  destruct (flexibility_rows _ s s' net x H Hx)
    as [(ir & u & d & _ & _ & _ & _ & ->)
       |(ir & f & u & d & _ & _ & _ & _ & ->)].
  - split; [left; split; reflexivity|discriminate].
  - split; [right; split; reflexivity|discriminate].
Qed.

(** X8. In every row of the returned table whose [et] is "sgen",
    [p_setpoint] and [q_setpoint] are the [p_mw] and [q_mvar] of the unit
    that [element] names, with their sign; the labels of the template's
    generators being without repetition, [p_setpoint] is the row's
    [down_quantity] (lines 66 and 91-101). *)
Theorem sgen_setpoints_kept (s s' : rng_state) (net : Net) (x : Flex.row) :
  test_case4 s = OK (net, s') -> In x (flexibility net) ->
  Flex.et x = Some "sgen" ->
  exists i r,
    Flex.element x = Some i /\ loc (sgen net) i = OK r /\
    Flex.p_setpoint x = Some (Elem.p_mw r) /\
    Flex.q_setpoint x = Some (Elem.q_mvar r) /\
    (NoDup (index (sgen tmpl)) -> Flex.p_setpoint x = Flex.down_quantity x).
Proof.
  intros H Hx Het.
  destruct (flexibility_rows _ s s' net x H Hx)
    as [(ir & u & d & _ & _ & _ & _ & ->)
       |(ir & f & u & d & Hir & _ & _ & _ & ->)]; [discriminate Het|].
  destruct (loc_in _ _ Hir) as (r & E & Hr).
  exists (fst ir), r.
  assert (P : Flex.p_setpoint (sgen_fpu (sgen net) (ir, f) (u, d))
              = Some (Elem.p_mw r))
    by (unfold sgen_fpu, resolve; cbn [fst snd]; rewrite E; reflexivity).
  assert (Q : Flex.q_setpoint (sgen_fpu (sgen net) (ir, f) (u, d))
              = Some (Elem.q_mvar r))
    by (unfold sgen_fpu, resolve; cbn [fst snd]; rewrite E; reflexivity).
  split; [reflexivity|]. split; [exact E|].
  split; [exact P|]. split; [exact Q|].
  intros Dg. rewrite P. cbn [Flex.down_quantity sgen_fpu fst snd].
  do 2 f_equal. apply (NoDup_index_row (sgen net) (fst ir)).
  - apply run_inv in H. destruct H as (_ & _ & -> & _).
    unfold expected_net. cbn [sgen]. now rewrite index_iloc_but_last_imul.
  - exact Hr.
  - now destruct ir.
Qed.

(** X9. In every row of the returned table [bus] is the bus of the device
    that the row names: of the row with the label [element] in the table
    that [et] names (lines 103-105). *)
Theorem bus_of_device (s s' : rng_state) (net : Net) (x : Flex.row) :
  test_case4 s = OK (net, s') -> In x (flexibility net) ->
  exists name t i r,
    Flex.et x = Some name /\ getattr net (Some name) = OK t /\
    Flex.element x = Some i /\ loc t i = OK r /\ In (i, r) t /\
    Flex.bus x = Some (Elem.bus r).
Proof.
  intros H Hx.
  destruct (flexibility_rows _ s s' net x H Hx)
    as [(ir & u & d & Hir & _ & _ & _ & ->)
       |(ir & f & u & d & Hir & _ & _ & _ & ->)];
    destruct (loc_in _ _ Hir) as (r & E & Hr).
  - exists "load", (load net), (fst ir), r.
    split; [reflexivity|]. split; [reflexivity|]. split; [reflexivity|].
    split; [exact E|]. split; [exact Hr|].
    unfold load_fpu, resolve. rewrite E. reflexivity.
  - exists "sgen", (sgen net), (fst ir), r.
    split; [reflexivity|]. split; [reflexivity|]. split; [reflexivity|].
    split; [exact E|]. split; [exact Hr|].
    unfold sgen_fpu, resolve. cbn [fst snd]. rewrite E. reflexivity.
Qed.

(** X10. The returned table has no missing value: each of the eleven cells
    of every row has been assigned. *)
Theorem no_cell_missing (s s' : rng_state) (net : Net) (x : Flex.row) :
  test_case4 s = OK (net, s') -> In x (flexibility net) ->
  Flex.element x <> None /\ Flex.et x <> None /\
  Flex.up_quantity x <> None /\ Flex.up_cost x <> None /\
  Flex.down_quantity x <> None /\ Flex.down_cost x <> None /\
  Flex.FPU_type x <> None /\ Flex.FPU_info x <> None /\
  Flex.p_setpoint x <> None /\ Flex.q_setpoint x <> None /\
  Flex.bus x <> None.
Proof.
  intros H Hx.
  destruct (flexibility_rows _ s s' net x H Hx)
    as [(ir & u & d & Hir & _ & _ & _ & ->)
       |(ir & f & u & d & Hir & _ & _ & _ & ->)];
    destruct (loc_in _ _ Hir) as (r & E & _).
  - unfold load_fpu, resolve. rewrite E. cbn. repeat split; discriminate.
  - unfold sgen_fpu, resolve. cbn [fst snd]. rewrite E. cbn.
    repeat split; discriminate.
Qed.

(** X11. A run that returns leaves numpy's global generator in the state
    reached by [seed(2)] followed by 13 draws, whatever its state was before
    the call (lines 87-88). *)
Theorem generator_state_after (s s' : rng_state) (net : Net) :
  test_case4 s = OK (net, s') ->
  s' = snd (np_random_random 13 (np_random_seed 2)).
Proof. intros H. apply run_inv in H. tauto. Qed.

(** X12. The random columns follow the draws in their order: the [up_cost]
    of row [k] comes from the [k]-th of the 13 draws after [seed(1)], its
    [down_cost] from the [k]-th of the 13 draws after [seed(2)], and the box
    of the [k]-th generator row from the [k]-th of the 9 draws after
    [seed(0)] (lines 77-88). *)
Theorem random_columns_in_draw_order (s s' : rng_state) (net : Net) :
  test_case4 s = OK (net, s') ->
  map Flex.up_cost (flexibility net)
  = map (fun u => Some (of_int 90 + of_int 20 * np_round 3 u)%f64) up_draws /\
  map Flex.down_cost (flexibility net)
  = map (fun d => Some (of_int 100 - of_int 20 * np_round 3 d)%f64)
      down_draws /\
  map Flex.FPU_info (skipn 4 (flexibility net))
  = map (fun u => Some [("q_min", (of_int (-1) - np_round 3 u)%f64);
                        ("q_max", (of_int 1 + np_round 3 u)%f64)])
      fuzz_draws.
Proof.
  intros H. apply run_inv in H. destruct H as (H18 & H9 & -> & _).
  unfold expected_net. cbn [flexibility]. unfold expected_flexibility.
  pose proof (controllable_rows_expected _ H18) as H4.
  pose proof (iloc_but_last_imul_length (of_int 30) (sgen tmpl)) as Hsg.
  rewrite H9 in Hsg.
  assert (Lu : length up_draws = 13%nat)
    by (unfold up_draws; apply random_length).
  assert (Ld : length down_draws = 13%nat)
    by (unfold down_draws; apply random_length).
  assert (Hc : length (combine up_draws down_draws) = 13%nat)
    by (now rewrite length_combine, Lu, Ld).
  assert (Hf : length fuzz_draws = 9%nat)
    by (unfold fuzz_draws; apply random_length).
  set (sg := iloc_but_last_imul (of_int 30) (sgen tmpl)) in *.
  set (ld := expected_load (load tmpl)) in *.
  set (costs := combine up_draws down_draws) in *.
  assert (Ls : (length (skipn (length (controllable_rows ld)) costs)
                <= length (combine sg fuzz_draws))%nat)
    by (rewrite length_skipn, length_combine, Hsg, Hf, H4, Hc; cbn; lia).
  assert (Lh : (length (firstn (length (controllable_rows ld)) costs)
                <= length (controllable_rows ld))%nat)
    by (rewrite length_firstn; lia).
  rewrite (zip_with_firstn (load_fpu ld)).
  split; [|split].
  - rewrite map_app.
    rewrite (map_zip_with_r _ _
               (fun ud => Some (of_int 90 + of_int 20 * np_round 3 (fst ud))%f64))
      by (exact Lh || reflexivity).
    rewrite (map_zip_with_r _ _
               (fun ud => Some (of_int 90 + of_int 20 * np_round 3 (fst ud))%f64))
      by (exact Ls || reflexivity).
    rewrite <- map_app, firstn_skipn. unfold costs.
    apply (map_combine_l
             (fun u => Some (of_int 90 + of_int 20 * np_round 3 u)%f64)).
    rewrite Lu, Ld. lia.
  - rewrite map_app.
    rewrite (map_zip_with_r _ _
               (fun ud => Some (of_int 100 - of_int 20 * np_round 3 (snd ud))%f64))
      by (exact Lh || reflexivity).
    rewrite (map_zip_with_r _ _
               (fun ud => Some (of_int 100 - of_int 20 * np_round 3 (snd ud))%f64))
      by (exact Ls || reflexivity).
    rewrite <- map_app, firstn_skipn. unfold costs.
    apply (map_combine_r
             (fun d => Some (of_int 100 - of_int 20 * np_round 3 d)%f64)).
    rewrite Lu, Ld. lia.
  - rewrite skipn_app, skipn_all2
      by (rewrite zip_with_length, length_firstn, H4, Hc; cbn; lia).
    rewrite zip_with_length, length_firstn, H4, Hc.
    cbn [Nat.min Nat.sub app]. rewrite skipn_O.
    rewrite (map_zip_with_l _ _
               (fun irf => Some [("q_min", (of_int (-1) - np_round 3 (snd irf))%f64);
                                 ("q_max", (of_int 1 + np_round 3 (snd irf))%f64)])).
    + apply (map_combine_r
               (fun u => Some [("q_min", (of_int (-1) - np_round 3 u)%f64);
                               ("q_max", (of_int 1 + np_round 3 u)%f64)])).
      rewrite Hsg, Hf. lia.
    + rewrite length_combine, length_skipn, Hsg, Hf, Hc. cbn. lia.
    + reflexivity.
Qed.
End Further.

(** ** Further witnesses on the sample *)



Lemma template_columns_set_witness :
  NumPySpec Sample.numpy /\
  @test_case4 Sample.numpy Sample.network 42%nat = OK (Sample.net, 26%nat) /\
  length (switch Sample.net) = length (switch (Sample.network "pv_wind")) /\
  Forall (fun r => closed r = true) (switch Sample.net) /\
  length (bus Sample.net) = length (bus (Sample.network "pv_wind")) /\
  Forall (fun r => max_vm_pu r = Some (lit 1.05) /\
                   min_vm_pu r = Some (lit 0.95)) (bus Sample.net) /\
  length (line Sample.net) = length (line (Sample.network "pv_wind")) /\
  Forall (fun r => max_loading_percent r = Some (Int 100) /\
                   c_nf_per_km r = Int 0) (line Sample.net).
Proof.
  split; [exact sample_numpy_spec|]. split; [exact sample_run|].
  exact (@template_columns_set Sample.numpy sample_numpy_spec Sample.network
           42%nat 26%nat Sample.net sample_run).
Defined.

Lemma load_flags_witness :
  NumPySpec Sample.numpy /\
  @test_case4 Sample.numpy Sample.network 42%nat = OK (Sample.net, 26%nat) /\
  nth_error (load (Sample.network "pv_wind")) 8
  = Some (8%Z, Sample.elem 12 14.994 3.044) /\
  length (load Sample.net) = length (load (Sample.network "pv_wind")) /\
  exists r',
    nth_error (load Sample.net) 8 = Some (8%Z, r') /\
    Elem.bus r' = Elem.bus (Sample.elem 12 14.994 3.044) /\
    Elem.p_mw r' = Elem.p_mw (Sample.elem 12 14.994 3.044) /\
    Elem.q_mvar r' = Elem.q_mvar (Sample.elem 12 14.994 3.044) /\
    Elem.controllable r' = Some (existsb (Nat.eqb 8) [0; 8; 16; 17]%nat).
Proof.
  split; [exact sample_numpy_spec|]. split; [exact sample_run|].
  split; [reflexivity|].
  exact (@load_flags Sample.numpy sample_numpy_spec Sample.network
           42%nat 26%nat Sample.net 8%nat 8%Z (Sample.elem 12 14.994 3.044)
           sample_run eq_refl).
Defined.

Lemma load_rows_by_position_witness :
  NumPySpec Sample.numpy /\
  @test_case4 Sample.numpy Sample.network 42%nat = OK (Sample.net, 26%nat) /\
  nth_error [0; 8; 16; 17]%nat 1 = Some 8%nat /\
  nth_error (load (Sample.network "pv_wind")) 8
  = Some (8%Z, Sample.elem 12 14.994 3.044) /\
  exists x,
    nth_error (flexibility Sample.net) 1 = Some x /\
    Flex.element x = Some 8%Z /\ Flex.et x = Some "load" /\
    Flex.up_quantity x
    = Some (Elem.p_mw (Sample.elem 12 14.994 3.044) / of_int 2)%f64 /\
    Flex.down_quantity x
    = Some (Elem.p_mw (Sample.elem 12 14.994 3.044) / of_int 2)%f64 /\
    Flex.FPU_type x = Some "load" /\
    Flex.FPU_info x
    = Some [("pf",
             @np_cos Sample.numpy
               (@np_arctan Sample.numpy
                  (Elem.q_mvar (Sample.elem 12 14.994 3.044)
                   / Elem.p_mw (Sample.elem 12 14.994 3.044))%f64))].
Proof.
  split; [exact sample_numpy_spec|]. split; [exact sample_run|].
  split; [reflexivity|]. split; [reflexivity|].
  exact (@load_rows_by_position Sample.numpy sample_numpy_spec Sample.network
           42%nat 26%nat Sample.net 1%nat 8%nat 8%Z
           (Sample.elem 12 14.994 3.044) sample_run eq_refl eq_refl).
Defined.

Lemma sgen_rows_by_position_witness :
  NumPySpec Sample.numpy /\
  @test_case4 Sample.numpy Sample.network 42%nat = OK (Sample.net, 26%nat) /\
  nth_error (sgen (Sample.network "pv_wind")) 2
  = Some (2%Z, Sample.elem 5 0.03 0) /\
  let p := if Nat.ltb 2 8
           then (Elem.p_mw (Sample.elem 5 0.03 0) * of_int 30)%f64
           else Elem.p_mw (Sample.elem 5 0.03 0) in
  exists x,
    nth_error (flexibility Sample.net) (4 + 2) = Some x /\
    Flex.element x = Some 2%Z /\ Flex.et x = Some "sgen" /\
    Flex.down_quantity x = Some p /\
    Flex.up_quantity x = Some (lit 1.1 * p)%f64.
Proof.
  split; [exact sample_numpy_spec|]. split; [exact sample_run|].
  split; [reflexivity|].
  exact (@sgen_rows_by_position Sample.numpy sample_numpy_spec Sample.network
           42%nat 26%nat Sample.net 2%nat 2%Z (Sample.elem 5 0.03 0)
           sample_run eq_refl).
Defined.

Lemma FPU_type_load_or_Box_witness :
  NumPySpec Sample.numpy /\
  @test_case4 Sample.numpy Sample.network 42%nat = OK (Sample.net, 26%nat) /\
  In sample_sgen_fpu (flexibility Sample.net) /\
  ((Flex.et sample_sgen_fpu = Some "load" /\
    Flex.FPU_type sample_sgen_fpu = Some "load") \/
   (Flex.et sample_sgen_fpu = Some "sgen" /\
    Flex.FPU_type sample_sgen_fpu = Some "Box")) /\
  Flex.FPU_type sample_sgen_fpu <> Some "PV".
Proof.
  split; [exact sample_numpy_spec|]. split; [exact sample_run|].
  split; [exact sample_sgen_fpu_in|].
  exact (@FPU_type_load_or_Box Sample.numpy sample_numpy_spec Sample.network
           42%nat 26%nat Sample.net sample_sgen_fpu sample_run
           sample_sgen_fpu_in).
Defined.

Lemma sgen_setpoints_kept_witness :
  NumPySpec Sample.numpy /\
  @test_case4 Sample.numpy Sample.network 42%nat = OK (Sample.net, 26%nat) /\
  In sample_sgen_fpu (flexibility Sample.net) /\
  Flex.et sample_sgen_fpu = Some "sgen" /\
  exists i r,
    Flex.element sample_sgen_fpu = Some i /\
    loc (sgen Sample.net) i = OK r /\
    Flex.p_setpoint sample_sgen_fpu = Some (Elem.p_mw r) /\
    Flex.q_setpoint sample_sgen_fpu = Some (Elem.q_mvar r) /\
    (NoDup (index (sgen (Sample.network "pv_wind"))) ->
     Flex.p_setpoint sample_sgen_fpu = Flex.down_quantity sample_sgen_fpu).
Proof.
  split; [exact sample_numpy_spec|]. split; [exact sample_run|].
  split; [exact sample_sgen_fpu_in|]. split; [reflexivity|].
  exact (@sgen_setpoints_kept Sample.numpy sample_numpy_spec Sample.network
           42%nat 26%nat Sample.net sample_sgen_fpu sample_run
           sample_sgen_fpu_in eq_refl).
Defined.

Lemma bus_of_device_witness :
  NumPySpec Sample.numpy /\
  @test_case4 Sample.numpy Sample.network 42%nat = OK (Sample.net, 26%nat) /\
  In sample_load_fpu (flexibility Sample.net) /\
  exists name t i r,
    Flex.et sample_load_fpu = Some name /\
    getattr Sample.net (Some name) = OK t /\
    Flex.element sample_load_fpu = Some i /\ loc t i = OK r /\
    In (i, r) t /\ Flex.bus sample_load_fpu = Some (Elem.bus r).
Proof.
  split; [exact sample_numpy_spec|]. split; [exact sample_run|].
  split; [exact sample_load_fpu_in|].
  exact (@bus_of_device Sample.numpy sample_numpy_spec Sample.network
           42%nat 26%nat Sample.net sample_load_fpu sample_run
           sample_load_fpu_in).
Defined.

Lemma no_cell_missing_witness :
  NumPySpec Sample.numpy /\
  @test_case4 Sample.numpy Sample.network 42%nat = OK (Sample.net, 26%nat) /\
  In sample_load_fpu (flexibility Sample.net) /\
  Flex.element sample_load_fpu <> None /\ Flex.et sample_load_fpu <> None /\
  Flex.up_quantity sample_load_fpu <> None /\
  Flex.up_cost sample_load_fpu <> None /\
  Flex.down_quantity sample_load_fpu <> None /\
  Flex.down_cost sample_load_fpu <> None /\
  Flex.FPU_type sample_load_fpu <> None /\
  Flex.FPU_info sample_load_fpu <> None /\
  Flex.p_setpoint sample_load_fpu <> None /\
  Flex.q_setpoint sample_load_fpu <> None /\
  Flex.bus sample_load_fpu <> None.
Proof.
  split; [exact sample_numpy_spec|]. split; [exact sample_run|].
  split; [exact sample_load_fpu_in|].
  exact (@no_cell_missing Sample.numpy sample_numpy_spec Sample.network
           42%nat 26%nat Sample.net sample_load_fpu sample_run
           sample_load_fpu_in).
Defined.

Lemma generator_state_after_witness :
  NumPySpec Sample.numpy /\
  @test_case4 Sample.numpy Sample.network 42%nat = OK (Sample.net, 26%nat) /\
  26%nat
  = snd (@np_random_random Sample.numpy 13 (@np_random_seed Sample.numpy 2)).
Proof.
  split; [exact sample_numpy_spec|]. split; [exact sample_run|].
  exact (@generator_state_after Sample.numpy sample_numpy_spec Sample.network
           42%nat 26%nat Sample.net sample_run).
Defined.

Lemma random_columns_in_draw_order_witness :
  NumPySpec Sample.numpy /\
  @test_case4 Sample.numpy Sample.network 42%nat = OK (Sample.net, 26%nat) /\
  map Flex.up_cost (flexibility Sample.net)
  = map (fun u => Some (of_int 90
                        + of_int 20 * @np_round Sample.numpy 3 u)%f64)
      (@up_draws Sample.numpy) /\
  map Flex.down_cost (flexibility Sample.net)
  = map (fun d => Some (of_int 100
                        - of_int 20 * @np_round Sample.numpy 3 d)%f64)
      (@down_draws Sample.numpy) /\
  map Flex.FPU_info (skipn 4 (flexibility Sample.net))
  = map (fun u =>
           Some [("q_min", (of_int (-1) - @np_round Sample.numpy 3 u)%f64);
                 ("q_max", (of_int 1 + @np_round Sample.numpy 3 u)%f64)])
      (@fuzz_draws Sample.numpy).
Proof.
  split; [exact sample_numpy_spec|]. split; [exact sample_run|].
  exact (@random_columns_in_draw_order Sample.numpy sample_numpy_spec
           Sample.network 42%nat 26%nat Sample.net sample_run).
Defined.
